(** * ouch: the owie logger (src/main.py)

    A shallow embedding of the FastAPI service of [src/main.py]: the settings
    check, the retry loop around the weather API call, the SQLite table set-up
    and insert, and the two route handlers.

    Python values are an inductive type, dictionaries are association lists
    in insertion order, Python floats are the kernel's binary64 floats, the
    tables of the database (SQLite's own [sqlite_sequence] among them) are a
    finite map from their names, and the
    effects of the program (HTTP requests, random draws, sleeps, the file at
    [settings.db_path]) are threaded through a state-and-exception monad
    whose state also keeps the trace of the effects performed. What the
    outside answers (responses, random values, failures of the file system
    and of commits) is a parameter of the program. *)

From Stdlib Require Import ZArith Lia Strings.Ascii.
From Stdlib Require Import Floats.PrimFloat Floats.SpecFloat Floats.FloatOps.
From stdpp Require Import base option list strings gmap pretty.

Set Warnings "-register-all".

Open Scope string_scope.
Open Scope list_scope.
Open Scope Z_scope.

(** ** Python values *)

Inductive value :=
| VNone
| VBool (b : bool)
| VInt (n : Z)
| VFloat (x : float)
| VStr (s : string)
| VList (l : list value)
| VTuple (l : list value)
| VDict (d : list (string * value)).

(** [bool(v)]: the truth value Python's [not], [or] and [if] test. A float is
    false exactly when it compares equal to zero (so [-0.0] is false and a
    NaN is true). *)
Definition truthy (v : value) : bool :=
  match v with
  | VNone => false
  | VBool b => b
  | VInt n => negb (n =? 0)%Z
  | VFloat x => negb (PrimFloat.eqb x 0%float)
  | VStr s => match s with EmptyString => false | String _ _ => true end
  | VList l | VTuple l => match l with [] => false | _ :: _ => true end
  | VDict d => match d with [] => false | _ :: _ => true end
  end.

(** [float(n)] for a Python int, rounded to the nearest binary64. *)
Definition float_of_int (n : Z) : float :=
  SF2Prim (binary_normalize prec emax n 0 false).

(** ** Exceptions

    One constructor per exception class the program raises, catches or can
    meet; [SQLiteError] is [sqlite3.Error] with its subclasses, [RequestError]
    is [httpx.RequestError] with its subclasses, and [OtherError] is any class
    that no handler of the program names. *)

Inductive exn :=
| ValueError (msg : string)
| RuntimeError (msg : string)
| AttributeError
| TypeError
| IndexError
| KeyError
| OverflowError
| JSONDecodeError
| OSError (msg : string)
| SQLiteError (msg : string)
| RequestError (msg : string)
| OtherError (msg : string).

Inductive result (A : Type) :=
| Return (a : A)
| Raise (e : exn).
Arguments Return {A} a.
Arguments Raise {A} e.

(** ** The database file *)

(** The declared type of a column, which gives the column its affinity;
    [BLOB] is the affinity of a column declared without a type. *)
Inductive sqltype := INTEGER | REAL | TEXT | BLOB.

(** What a cell holds. The last two constructors name the outcome of the
    two conversions of column affinity that go through SQLite's own reader
    and printer of numbers, whose results depend on the version of the
    library: [SqlNumberOf ty s] is what a column of numeric affinity [ty]
    keeps of the text [s] (the number [s] is a literal of, or [s] itself
    when it is none), and [SqlTextOf x] is the text a TEXT column keeps of
    the real [x]. Neither is ever NULL. *)
Inductive sqlval :=
| SqlNull
| SqlInteger (n : Z)
| SqlReal (x : float)
| SqlText (s : string)
| SqlNumberOf (ty : sqltype) (s : string)
| SqlTextOf (x : float).

Record column := {
  col_name : string;
  col_type : sqltype;
  col_notnull : bool;
  (* INTEGER PRIMARY KEY AUTOINCREMENT *)
  col_autoincrement : bool
}.

(** A row lists its cells in the order of the table's columns. *)
Definition row := list (string * sqlval).

Record table := {
  tbl_columns : list column;
  tbl_rows : list row
}.

(** What is stored at a path: the tables of a database, by name, or
    anything SQLite cannot read as one. *)
Inductive file :=
| NotADatabase
| Database (tables : gmap string table).

(** ** The world: effects performed, and the file system at [db_path] *)

Inductive statement :=
| CreateTableIfNotExists (name : string) (columns : list column)
| InsertInto (name : string) (columns : list string) (params : list value).

Inductive event :=
| EvPrint (text : string)
| EvGet (url : string) (params : list (string * value))
| EvUniform (a b : float)
| EvSleep (seconds : float)
| EvExists (path : string)
| EvMakedirs (path : string)
| EvOpenW (path : string)
| EvConnect (path : string)
| EvExecute (sql : statement)
| EvCommit
| EvRollback.

Record world := {
  (* newest event first *)
  w_trace : list event;
  (* does the directory of [settings.db_path] exist *)
  w_dir : bool;
  (* what is stored at [settings.db_path], if anything *)
  w_file : option file;
  (* the tables as the open transaction sees them, when one is open *)
  w_txn : option (gmap string table)
}.

Definition emit (ev : event) (w : world) : world :=
  {| w_trace := ev :: w_trace w; w_dir := w_dir w; w_file := w_file w;
     w_txn := w_txn w |}.

Definition set_dir (b : bool) (w : world) : world :=
  {| w_trace := w_trace w; w_dir := b; w_file := w_file w; w_txn := w_txn w |}.

Definition set_file (f : option file) (w : world) : world :=
  {| w_trace := w_trace w; w_dir := w_dir w; w_file := f; w_txn := w_txn w |}.

Definition set_txn (t : option (gmap string table)) (w : world) : world :=
  {| w_trace := w_trace w; w_dir := w_dir w; w_file := w_file w; w_txn := t |}.

(** What the outside world answers. *)

Record response := {
  status_code : Z;
  (* what [response.json()] parses the body to; [None] when it is not JSON *)
  body_json : option value
}.

Record env := {
  (* the outcome of the n-th [client.get] (counting from 0) *)
  env_get : nat -> result response;
  (* the value of the n-th [random.uniform] (counting from 0) *)
  env_uniform : nat -> float;
  (* [Some e]: creating the missing directory fails with [OSError(e)] *)
  env_mkdir_error : option string;
  (* [Some e]: creating a file in the directory fails with [OSError(e)] *)
  env_create_error : option string;
  (* [Some e]: [commit] fails with [sqlite3.Error(e)] *)
  env_commit_error : option string
}.

(** ** The monad *)

Definition M (A : Type) : Type := world -> result A * world.

Definition ret {A} (a : A) : M A := fun w => (Return a, w).

Definition raise {A} (e : exn) : M A := fun w => (Raise e, w).

Definition bind {A B} (m : M A) (k : A -> M B) : M B :=
  fun w =>
    match m w with
    | (Return a, w') => k a w'
    | (Raise e, w') => (Raise e, w')
    end.

Definition lift {A} (r : result A) : M A := fun w => (r, w).

(** [try: m except ...: h]: [h e] is the handler of the first [except] clause
    that matches [e], if one does. *)
Definition try_except {A} (m : M A) (h : exn -> option (M A)) : M A :=
  fun w =>
    match m w with
    | (Return a, w') => (Return a, w')
    | (Raise e, w') =>
        match h e with
        | Some k => k w'
        | None => (Raise e, w')
        end
    end.

Definition perform (ev : event) : M unit := fun w => (Return tt, emit ev w).

Declare Scope py_scope.
Delimit Scope py_scope with py.
Notation "x <- m ;; k" := (bind m (fun x => k))
  (at level 100, m at next level, right associativity) : py_scope.
Notation "m ;;; k" := (bind m (fun _ => k))
  (at level 100, right associativity) : py_scope.
Open Scope py_scope.

(** ** Settings *)

Record Settings := {
  ow_api_key : string;
  db_path : string;
  lat : float;
  lon : float
}.

(** How many requests and draws a trace holds. The next request or draw asks
    the environment for the outcome of that index. *)

Definition is_get (ev : event) : bool :=
  match ev with EvGet _ _ => true | _ => false end.

Definition is_uniform (ev : event) : bool :=
  match ev with EvUniform _ _ => true | _ => false end.

Definition count (p : event -> bool) (tr : list event) : nat :=
  length (List.filter p tr).

(** ** Python primitives the handlers use *)

Fixpoint assoc (key : string) (d : list (string * value)) : option value :=
  match d with
  | [] => None
  | (k, v) :: d' => if String.eqb k key then Some v else assoc key d'
  end.

(** [obj.get(key, default)]: only a dict has the method. *)
Definition py_get (obj : value) (key : string) (default : value) : result value :=
  match obj with
  | VDict d => Return (match assoc key d with Some v => v | None => default end)
  | _ => Raise AttributeError
  end.

(** [obj[0]]. The keys of a parsed JSON object are strings, so a dict has no
    key [0]. *)
Definition py_first (obj : value) : result value :=
  match obj with
  | VList (x :: _) | VTuple (x :: _) => Return x
  | VList [] | VTuple [] => Raise IndexError
  | VStr (String c _) => Return (VStr (String c EmptyString))
  | VStr EmptyString => Raise IndexError
  | VDict _ => Raise KeyError
  | VNone | VBool _ | VInt _ | VFloat _ => Raise TypeError
  end.

(** [obj[key]] for a string key. *)
Definition py_getitem (obj : value) (key : string) : result value :=
  match obj with
  | VDict d => match assoc key d with Some v => Return v | None => Raise KeyError end
  | _ => Raise TypeError
  end.

Definition is_none (v : value) : bool :=
  match v with VNone => true | _ => false end.

(** [range(start, stop)]. *)
Definition py_range (start stop : Z) : list Z :=
  map (fun i => start + Z.of_nat i) (seq 0 (Z.to_nat (stop - start))).

(** [os.path.dirname] (posixpath): the part before the last slash, without
    trailing slashes unless it consists of slashes only. *)
Definition is_slash (c : Ascii.ascii) : bool := Ascii.eqb c "/"%char.

Fixpoint head_of_path (p : string) : string :=
  match p with
  | EmptyString => EmptyString
  | String c p' =>
      match head_of_path p' with
      | EmptyString => if is_slash c then String c EmptyString else EmptyString
      | h => String c h
      end
  end.

Fixpoint rstrip_slashes (s : string) : string :=
  match s with
  | EmptyString => EmptyString
  | String c s' =>
      match rstrip_slashes s' with
      | EmptyString => if is_slash c then EmptyString else String c EmptyString
      | r => String c r
      end
  end.

Definition dirname (p : string) : string :=
  let head := head_of_path p in
  match rstrip_slashes head with
  | EmptyString => head
  | stripped => stripped
  end.

(** ** SQLite, as far as the two statements of the program go

    A table is described by what the program's CREATE TABLE states of a
    column: its name, its declared type, NOT NULL, and the AUTOINCREMENT
    key. A bound parameter is converted by the affinity of its column
    before it is stored. *)

(** How [sqlite3] binds a Python parameter. A NaN is bound as NULL. *)
Definition adapt (v : value) : result sqlval :=
  match v with
  | VNone => Return SqlNull
  | VBool b => Return (SqlInteger (if b then 1 else 0))
  | VInt n =>
      if (- 2 ^ 63 <=? n) && (n <? 2 ^ 63) then Return (SqlInteger n)
      else Raise OverflowError
  | VFloat x => Return (if PrimFloat.is_nan x then SqlNull else SqlReal x)
  | VStr s => Return (SqlText s)
  | VList _ | VTuple _ | VDict _ =>
      Raise (SQLiteError "Error binding parameter: type is not supported")
  end.

(** The integer a real is, when it is one that lies strictly between the
    smallest and the largest 64-bit integer. *)
Definition integer_of_real (x : float) : option Z :=
  match Prim2SF x with
  | S754_zero _ => Some 0
  | S754_finite sign m e =>
      let magnitude :=
        if 0 <=? e then Some (Z.pos m * 2 ^ e)
        else if Z.pos m mod 2 ^ (- e) =? 0 then Some (Z.pos m / 2 ^ (- e))
        else None in
      match magnitude with
      | Some a =>
          let n := if sign then - a else a in
          if (- 2 ^ 63 <? n) && (n <? 2 ^ 63 - 1) then Some n else None
      | None => None
      end
  | S754_infinity _ | S754_nan => None
  end.

(** Column affinity: what a column of declared type [ty] stores of a bound
    cell. An INTEGER column turns a real that is an integer into that
    integer, a REAL column turns an integer into the nearest real, a TEXT
    column turns a number into text, and the numeric columns turn text that
    reads as a number into that number. *)
Definition apply_affinity (ty : sqltype) (c : sqlval) : sqlval :=
  match ty, c with
  | INTEGER, SqlReal x =>
      match integer_of_real x with
      | Some n => SqlInteger n
      | None => SqlReal x
      end
  | INTEGER, SqlText s => SqlNumberOf INTEGER s
  | REAL, SqlInteger n => SqlReal (float_of_int n)
  | REAL, SqlText s => SqlNumberOf REAL s
  | TEXT, SqlInteger n => SqlText (pretty n)
  | TEXT, SqlReal x => SqlTextOf x
  | _, _ => c
  end.

Fixpoint adapt_all (vs : list value) : result (list sqlval) :=
  match vs with
  | [] => Return []
  | v :: vs' =>
      match adapt v with
      | Raise e => Raise e
      | Return c =>
          match adapt_all vs' with
          | Raise e => Raise e
          | Return cs => Return (c :: cs)
          end
      end
  end.

Fixpoint cell (name : string) (r : row) : option sqlval :=
  match r with
  | [] => None
  | (k, c) :: r' => if String.eqb k name then Some c else cell name r'
  end.

Definition has_column (t : table) (name : string) : bool :=
  existsb (fun c => String.eqb (col_name c) name) (tbl_columns t).

Definition is_null (c : sqlval) : bool :=
  match c with SqlNull => true | _ => false end.

(** *** [sqlite_sequence]

    The table SQLite creates together with the first table that has an
    AUTOINCREMENT key. It keeps one row per such table that has been
    inserted into: the name of the table and the largest id handed out. *)

Definition sequence_columns : list column :=
  [ {| col_name := "name"; col_type := BLOB; col_notnull := false;
       col_autoincrement := false |};
    {| col_name := "seq"; col_type := BLOB; col_notnull := false;
       col_autoincrement := false |} ].

Definition sequence_row (name : string) (seq : Z) : row :=
  [ ("name", SqlText name); ("seq", SqlInteger seq) ].

Definition names_table (name : string) (r : row) : bool :=
  match cell "name" r with
  | Some (SqlText n) => String.eqb n name
  | _ => false
  end.

(** The sequence of table [name]: the [seq] of its first row, 0 without
    one. *)
Fixpoint get_seq (name : string) (rows : list row) : Z :=
  match rows with
  | [] => 0
  | r :: rows' =>
      if names_table name r then
        match cell "seq" r with
        | Some (SqlInteger seq) => seq
        | _ => 0
        end
      else get_seq name rows'
  end.

(** The row of table [name] is set to [seq], and added when there is none. *)
Fixpoint set_seq (name : string) (seq : Z) (rows : list row) : list row :=
  match rows with
  | [] => [sequence_row name seq]
  | r :: rows' =>
      if names_table name r then sequence_row name seq :: rows'
      else r :: set_seq name seq rows'
  end.

Definition sequence_of (db : gmap string table) (name : string) : Z :=
  match db !! "sqlite_sequence" with
  | Some t => get_seq name (tbl_rows t)
  | None => 0
  end.

Definition with_sequence_table (db : gmap string table) : gmap string table :=
  match db !! "sqlite_sequence" with
  | Some _ => db
  | None =>
      <["sqlite_sequence" := {| tbl_columns := sequence_columns;
                                tbl_rows := [] |}]> db
  end.

Definition set_sequence (name : string) (seq : Z) (db : gmap string table)
  : gmap string table :=
  let t := default {| tbl_columns := sequence_columns; tbl_rows := [] |}
             (db !! "sqlite_sequence") in
  <["sqlite_sequence" := {| tbl_columns := tbl_columns t;
                            tbl_rows := set_seq name seq (tbl_rows t) |}]> db.

(** *** CREATE TABLE IF NOT EXISTS *)

Definition create_table (name : string) (columns : list column)
    (db : gmap string table) : gmap string table :=
  let db' := <[name := {| tbl_columns := columns; tbl_rows := [] |}]> db in
  if existsb col_autoincrement columns then with_sequence_table db' else db'.

(** *** INSERT *)

(** The integer the row has in the AUTOINCREMENT key of the table. *)
Definition key_of (t : table) (r : row) : option Z :=
  match List.find col_autoincrement (tbl_columns t) with
  | Some c =>
      match cell (col_name c) r with
      | Some (SqlInteger n) => Some n
      | _ => None
      end
  | None => None
  end.

(** The largest key of the rows, if one has a key. *)
Fixpoint largest_key (t : table) (rows : list row) : option Z :=
  match rows with
  | [] => None
  | r :: rows' =>
      match key_of t r, largest_key t rows' with
      | Some n, Some m => Some (Z.max n m)
      | Some n, None => Some n
      | None, m => m
      end
  end.

(** The id a new row gets: one more than the largest id of the table and
    than the largest id the table ever gave out. *)
Definition next_id (t : table) (seq : Z) : Z :=
  Z.max (match largest_key t (tbl_rows t) with Some m => m + 1 | None => 1 end)
        (seq + 1).

(** The row an INSERT builds: the named columns take the bound cells, as
    the affinity of the column converts them, an AUTOINCREMENT key that is
    not named takes the new id, every other column is NULL. *)
Definition new_row (t : table) (id : Z) (assigned : row) : row :=
  map (fun c =>
         (col_name c,
          match cell (col_name c) assigned with
          | Some v => apply_affinity (col_type c) v
          | None => if col_autoincrement c then SqlInteger id else SqlNull
          end))
      (tbl_columns t).

(** Does the INSERT generate an id: the table has an AUTOINCREMENT key and
    the statement does not name it. *)
Definition generates_id (t : table) (names : list string) : bool :=
  existsb (fun c => col_autoincrement c
                    && negb (existsb (String.eqb (col_name c)) names))
          (tbl_columns t).

(** The first NOT NULL column, in the order of the table, that the row
    leaves NULL. *)
Definition null_violation (t : table) (r : row) : option column :=
  List.find (fun c =>
               col_notnull c &&
               match cell (col_name c) r with
               | Some v => is_null v
               | None => true
               end)
            (tbl_columns t).

(** The table with the new row, and the id generated for it if one was.
    [seq] is the sequence of the table. *)
Definition insert_into (name : string) (t : table) (seq : Z)
    (names : list string) (cells : list sqlval) : result (table * option Z) :=
  let id := next_id t seq in
  if generates_id t names && (2 ^ 63 - 1 <? id) then
    Raise (SQLiteError "database or disk is full")
  else
    let r := new_row t id (combine names cells) in
    match null_violation t r with
    | Some c =>
        Raise (SQLiteError ("NOT NULL constraint failed: " +:+ name +:+ "."
                            +:+ col_name c))
    | None =>
        Return ({| tbl_columns := tbl_columns t; tbl_rows := tbl_rows t ++ [r] |},
                if generates_id t names then Some id else None)
    end.

(** What a statement does to the tables; [Return None] when it changes
    nothing. An INSERT is prepared (the table and the columns exist), then
    its parameters are bound, then the row is checked and stored, and the
    id it generated is noted in [sqlite_sequence]. *)
Definition run_statement (sql : statement) (db : gmap string table)
  : result (option (gmap string table)) :=
  match sql with
  | CreateTableIfNotExists name columns =>
      match db !! name with
      | Some _ => Return None
      | None => Return (Some (create_table name columns db))
      end
  | InsertInto name names params =>
      match db !! name with
      | None => Raise (SQLiteError ("no such table: " +:+ name))
      | Some t =>
          if negb (forallb (has_column t) names) then
            Raise (SQLiteError
                     ("table " +:+ name +:+ " has no column named "
                      +:+ default "" (List.find (fun n => negb (has_column t n))
                                        names)))
          else
            match adapt_all params with
            | Raise e => Raise e
            | Return cells =>
                match insert_into name t (sequence_of db name) names cells with
                | Raise e => Raise e
                | Return (t', None) => Return (Some (<[name := t']> db))
                | Return (t', Some id) =>
                    Return (Some (set_sequence name id (<[name := t']> db)))
                end
            end
      end
  end.

(** ** The program *)

Definition owie_logs_columns : list column :=
  [ {| col_name := "weather_id"; col_type := INTEGER; col_notnull := false;
       col_autoincrement := false |};
    {| col_name := "weather_main"; col_type := TEXT; col_notnull := false;
       col_autoincrement := false |};
    {| col_name := "weather_description"; col_type := TEXT;
       col_notnull := false; col_autoincrement := false |};
    {| col_name := "id"; col_type := INTEGER; col_notnull := false;
       col_autoincrement := true |};
    {| col_name := "date_time"; col_type := INTEGER; col_notnull := true;
       col_autoincrement := false |};
    {| col_name := "body_part"; col_type := TEXT; col_notnull := true;
       col_autoincrement := false |};
    {| col_name := "humidity"; col_type := REAL; col_notnull := true;
       col_autoincrement := false |};
    {| col_name := "precipitation"; col_type := REAL; col_notnull := true;
       col_autoincrement := false |};
    {| col_name := "uv_index"; col_type := REAL; col_notnull := true;
       col_autoincrement := false |};
    {| col_name := "temperature"; col_type := REAL; col_notnull := true;
       col_autoincrement := false |};
    {| col_name := "pressure"; col_type := REAL; col_notnull := true;
       col_autoincrement := false |} ].

Definition insert_columns : list string :=
  [ "date_time"; "body_part"; "temperature"; "pressure"; "humidity";
    "precipitation"; "uv_index"; "weather_id"; "weather_main";
    "weather_description" ].

Definition api_url : string := "https://api.openweathermap.org/data/3.0/onecall".

Definition default_exclude : string := "minutely,hourly,daily,alerts".

Section Program.
Context (E : env) (settings : Settings).

(** *** Effects *)

Definition print (text : string) : M unit := perform (EvPrint text).

Definition client_get (url : string) (params : list (string * value))
  : M response :=
  fun w => (env_get E (count is_get (w_trace w)), emit (EvGet url params) w).

Definition random_uniform (a b : float) : M float :=
  fun w => (Return (env_uniform E (count is_uniform (w_trace w))),
            emit (EvUniform a b) w).

Definition asyncio_sleep (seconds : float) : M unit :=
  perform (EvSleep seconds).

Definition response_json (r : response) : M value :=
  lift (match body_json r with
        | Some v => Return v
        | None => Raise JSONDecodeError
        end).

Definition os_path_exists (path : string) : M bool :=
  fun w => (Return (match w_file w with Some _ => true | None => false end),
            emit (EvExists path) w).

(** [os.makedirs(path, exist_ok=True)]; the empty path names no directory. *)
Definition os_makedirs (path : string) : M unit :=
  fun w =>
    let w' := emit (EvMakedirs path) w in
    match path with
    | EmptyString => (Raise (OSError "[Errno 2] No such file or directory: ''"), w')
    | String _ _ =>
        if w_dir w then (Return tt, w')
        else match env_mkdir_error E with
             | Some e => (Raise (OSError e), w')
             | None => (Return tt, set_dir true w')
             end
    end.

(** [open(path, 'w').close()]: an empty file, which SQLite reads as a
    database without tables. *)
Definition open_w_close (path : string) : M unit :=
  fun w =>
    let w' := emit (EvOpenW path) w in
    if w_dir w then
      match env_create_error E with
      | Some e => (Raise (OSError e), w')
      | None => (Return tt, set_file (Some (Database ∅)) w')
      end
    else (Raise (OSError "[Errno 2] No such file or directory"), w').

(** [sqlite3.connect(path)]: creates the file when it is missing. The new
    connection has no open transaction; the model keeps the transaction of
    the latest connection only. *)
Definition connect (path : string) : M unit :=
  fun w =>
    let w' := set_txn None (emit (EvConnect path) w) in
    match w_file w with
    | Some _ => (Return tt, w')
    | None =>
        if w_dir w then
          match env_create_error E with
          | Some _ => (Raise (SQLiteError "unable to open database file"), w')
          | None => (Return tt, set_file (Some (Database ∅)) w')
          end
        else (Raise (SQLiteError "unable to open database file"), w')
    end.

(** [cursor.execute(sql, params)]. An INSERT opens a transaction when none
    is open; CREATE TABLE outside a transaction is written at once. *)
Definition cursor_execute (sql : statement) : M unit :=
  fun w =>
    let w' := emit (EvExecute sql) w in
    match w_txn w with
    | Some db =>
        match run_statement sql db with
        | Raise e => (Raise e, w')
        | Return None => (Return tt, w')
        | Return (Some db') => (Return tt, set_txn (Some db') w')
        end
    | None =>
        match w_file w with
        | None => (Raise (SQLiteError "unable to open database file"), w')
        | Some NotADatabase => (Raise (SQLiteError "file is not a database"), w')
        | Some (Database db) =>
            match run_statement sql db with
            | Raise e => (Raise e, w')
            | Return None => (Return tt, w')
            | Return (Some db') =>
                match sql with
                | InsertInto _ _ _ => (Return tt, set_txn (Some db') w')
                | CreateTableIfNotExists _ _ =>
                    (Return tt, set_file (Some (Database db')) w')
                end
            end
        end
    end.

(** [connection.commit()]: nothing to do without an open transaction. *)
Definition connection_commit : M unit :=
  fun w =>
    let w' := emit EvCommit w in
    match w_txn w with
    | None => (Return tt, w')
    | Some db =>
        match env_commit_error E with
        | Some e => (Raise (SQLiteError e), w')
        | None => (Return tt, set_txn None (set_file (Some (Database db)) w'))
        end
    end.

Definition connection_rollback : M unit :=
  fun w => (Return tt, set_txn None (emit EvRollback w)).

(** [with connect(path) as conn: body]: the connection commits when the
    body ends normally and rolls back when it raises (also when that commit
    raises). *)
Definition with_connect {A} (path : string) (body : M A) : M A :=
  connect path ;;;
  fun w =>
    match body w with
    | (Return a, w') =>
        match connection_commit w' with
        | (Return _, w'') => (Return a, w'')
        | (Raise e, w'') => (Raise e, snd (connection_rollback w''))
        end
    | (Raise e, w') => (Raise e, snd (connection_rollback w'))
    end.

(** *** [validate_settings] *)

Definition validate_settings : M unit :=
  print "Validating settings" ;;;
  let missing_keys : list string := [] in
  let missing_keys :=
    if negb (truthy (VStr (ow_api_key settings)))
    then missing_keys ++ ["ow_api_key"] else missing_keys in
  let missing_keys :=
    if negb (truthy (VFloat (lat settings)))
    then missing_keys ++ ["lat"] else missing_keys in
  let missing_keys :=
    if negb (truthy (VFloat (lon settings)))
    then missing_keys ++ ["lon"] else missing_keys in
  match missing_keys with
  | _ :: _ =>
      raise (ValueError ("Missing required environment variables: "
                         +:+ String.concat ", " missing_keys))
  | [] => ret tt
  end.

(** *** [get_weather_data] *)

(** The [for attempt in range(1, retries + 1)] loop. [Some v] is the
    function's [return v]; [None] is the loop running out of attempts. The
    only way into the next iteration is the end of the [except] clause,
    which has doubled [backoff]. *)
Fixpoint retry_loop (api_key : string) (lat lon : float) (exclude : string)
    (retries : Z) (attempts : list Z) (backoff : Z) {struct attempts}
  : M (option value) :=
  match attempts with
  | [] => ret None
  | attempt :: attempts' =>
      r <- try_except
             (response <- client_get api_url
                            [ ("lat", VFloat lat); ("lon", VFloat lon);
                              ("appid", VStr api_key);
                              ("units", VStr "imperial");
                              ("exclude", VStr exclude) ] ;;
              if status_code response =? 200 then
                v <- response_json response ;; ret (Some v)
              else if status_code response =? 429 then
                raise (RuntimeError "Too many requests - API rate limit reached. Please try again later.")
              else
                raise (RuntimeError "Error fetching weather data from the API."))
             (fun e =>
                match e with
                | RequestError msg =>
                    Some (if attempt =? retries then
                            raise (RuntimeError ("Request failed after "
                                                 +:+ pretty retries
                                                 +:+ " retries: " +:+ msg))
                          else
                            jitter <- random_uniform 0 0.5 ;;
                            asyncio_sleep (float_of_int backoff + jitter) ;;;
                            ret None)
                | _ => None
                end) ;;
      match r with
      | Some v => ret (Some v)
      | None => retry_loop api_key lat lon exclude retries attempts' (backoff * 2)
      end
  end.

Definition get_weather_data (api_key : string) (lat lon : float)
    (exclude : string) : M value :=
  if negb (truthy (VStr api_key)) then raise (ValueError "API key is required.")
  else
    let retries := 5 in
    let backoff := 1 in
    r <- retry_loop api_key lat lon exclude retries
           (py_range 1 (retries + 1)) backoff ;;
    (* falling off the end of the function returns None *)
    ret (match r with Some v => v | None => VNone end).

(** *** [setup_database] *)

Definition setup_database : M unit :=
  file_exists <- os_path_exists (db_path settings) ;;
  (if negb file_exists then
     try_except
       (os_makedirs (dirname (db_path settings)) ;;;
        open_w_close (db_path settings))
       (fun e =>
          match e with
          | OSError os_error =>
              Some (raise (RuntimeError ("Error creating database file or directory: "
                                         +:+ os_error)))
          | _ => None
          end)
   else ret tt) ;;;
  with_connect (db_path settings)
    (cursor_execute (CreateTableIfNotExists "owie_logs" owie_logs_columns) ;;;
     connection_commit).

(** *** [insert_owie_log] *)

(** The nested [execute_insert], with the variables of the enclosing call
    it reads passed as arguments. *)
Definition execute_insert (date_time : value) (body_part : string)
    (weather_data : value) : M unit :=
  temperature <- lift (py_getitem weather_data "temperature") ;;
  pressure <- lift (py_getitem weather_data "pressure") ;;
  humidity <- lift (py_getitem weather_data "humidity") ;;
  precipitation <- lift (py_getitem weather_data "precipitation") ;;
  uv_index <- lift (py_getitem weather_data "uv_index") ;;
  weather_id <- lift (py_getitem weather_data "weather_id") ;;
  weather_main <- lift (py_getitem weather_data "weather_main") ;;
  weather_description <- lift (py_getitem weather_data "weather_description") ;;
  cursor_execute
    (InsertInto "owie_logs" insert_columns
       [ date_time; VStr body_part; temperature; pressure; humidity;
         precipitation; uv_index; weather_id; weather_main;
         weather_description ]) ;;;
  try_except connection_commit
    (fun e =>
       match e with
       | SQLiteError msg =>
           Some (raise (RuntimeError ("Error while inserting data into the database: "
                                      +:+ msg)))
       | _ => None
       end).

Definition insert_owie_log (date_time : value) (body_part : string)
    (weather_data : value) : M unit :=
  with_connect (db_path settings)
    (execute_insert date_time body_part weather_data).

(** *** The route handlers *)

Definition home : M value :=
  ret (VTuple [VDict [("message", VStr "Hello World")]; VInt 200]).

Definition log_owie (body_part : string) : M value :=
  if negb (truthy (VStr (ow_api_key settings)))
     || negb (truthy (VStr (db_path settings)))
     || negb (truthy (VFloat (lat settings)))
     || negb (truthy (VFloat (lon settings)))
  then
    ret (VTuple [VDict [("error", VStr "Missing required environment variables")];
                 VInt 400])
  else
    weather_data <- get_weather_data (ow_api_key settings) (lat settings)
                      (lon settings) default_exclude ;;
    current_weather <- lift (py_get weather_data "current" (VDict [])) ;;
    humidity <- lift (py_get current_weather "humidity" VNone) ;;
    rain <- lift (py_get current_weather "rain" (VDict [])) ;;
    rain_1h <- lift (py_get rain "1h" (VFloat 0)) ;;
    precipitation <-
      (if truthy rain_1h then ret rain_1h
       else
         snow <- lift (py_get current_weather "snow" (VDict [])) ;;
         lift (py_get snow "1h" (VFloat 0))) ;;
    uv_index <- lift (py_get current_weather "uvi" VNone) ;;
    weather <- lift (py_get current_weather "weather" (VList [VDict []])) ;;
    weather_0 <- lift (py_first weather) ;;
    weather_id <- lift (py_get weather_0 "id" VNone) ;;
    weather <- lift (py_get current_weather "weather" (VList [VDict []])) ;;
    weather_0 <- lift (py_first weather) ;;
    weather_main <- lift (py_get weather_0 "main" VNone) ;;
    weather <- lift (py_get current_weather "weather" (VList [VDict []])) ;;
    weather_0 <- lift (py_first weather) ;;
    weather_description <- lift (py_get weather_0 "description" VNone) ;;
    temperature <- lift (py_get current_weather "temp" VNone) ;;
    pressure <- lift (py_get current_weather "pressure" VNone) ;;
    date_time <- lift (py_get current_weather "dt" VNone) ;;
    if is_none temperature || is_none pressure || is_none date_time
       || is_none humidity || is_none uv_index || is_none weather_id
       || is_none weather_main || is_none weather_description
    then raise (RuntimeError "Incomplete weather data received from the API.")
    else
      (* Setup the database and insert a log *)
      setup_database ;;;
      let log_weather_data :=
        VDict [ ("weather_id", weather_id);
                ("weather_main", weather_main);
                ("weather_description", weather_description);
                ("temperature", temperature);
                ("pressure", pressure);
                ("humidity", humidity);
                ("precipitation", precipitation);
                ("uv_index", uv_index) ] in
      insert_owie_log date_time body_part log_weather_data ;;;
      ret (VDict [ ("message", VStr "Logged owie details successfully");
                   ("body_part", VStr body_part);
                   ("temperature", temperature);
                   ("pressure", pressure) ]).

End Program.

(** *** The routes of [app] *)

Inductive http_method := GET | POST.

Inductive handler := Home | LogOwie.

(** A route of the application: one that [FastAPI()] sets up by itself, to
    serve the OpenAPI schema and the documentation pages, or one that a
    decorator of the module registers for a handler. *)
Inductive route :=
| DocsRoute (path : string)
| ApiRoute (method : http_method) (path : string) (endpoint : handler).

(** [FastAPI()], with the default URLs of the schema and the pages. *)
Definition FastAPI : list route :=
  [ DocsRoute "/openapi.json"; DocsRoute "/docs";
    DocsRoute "/docs/oauth2-redirect"; DocsRoute "/redoc" ].

(** [@app.get(path)] and [@app.post(path)] applied to [endpoint]. *)
Definition app_get (path : string) (endpoint : handler) (app : list route)
  : list route :=
  app ++ [ApiRoute GET path endpoint].

Definition app_post (path : string) (endpoint : handler) (app : list route)
  : list route :=
  app ++ [ApiRoute POST path endpoint].

(** [app.routes] once the module is loaded: [app = FastAPI()], then
    [@app.get("/")] and [@app.post("/owie/{body_part}")], in the order of
    the decorators. *)
Definition app_routes : list route :=
  app_post "/owie/{body_part}" LogOwie (app_get "/" Home FastAPI).

Definition is_api_route (r : route) : bool :=
  match r with ApiRoute _ _ _ => true | DocsRoute _ => false end.

(** The routes of the schema and the pages answer GET. *)
Definition is_post (r : route) : bool :=
  match r with ApiRoute POST _ _ => true | _ => false end.

(** ** Reading a trace *)

(** The query parameters of the request, as [get_weather_data] builds them. *)
Definition weather_params (api_key : string) (lat lon : float)
    (exclude : string) : list (string * value) :=
  [ ("lat", VFloat lat); ("lon", VFloat lon); ("appid", VStr api_key);
    ("units", VStr "imperial"); ("exclude", VStr exclude) ].

(** The durations slept, newest first. *)
Fixpoint sleeps (tr : list event) : list float :=
  match tr with
  | [] => []
  | EvSleep d :: tr' => d :: sleeps tr'
  | _ :: tr' => sleeps tr'
  end.

(** The bounds of the random draws, newest first. *)
Fixpoint draws (tr : list event) : list (float * float) :=
  match tr with
  | [] => []
  | EvUniform a b :: tr' => (a, b) :: draws tr'
  | _ :: tr' => draws tr'
  end.

(** The URLs requested, newest first. *)
Fixpoint requested (tr : list event) : list string :=
  match tr with
  | [] => []
  | EvGet url _ :: tr' => url :: requested tr'
  | _ :: tr' => requested tr'
  end.

(** Does the trace hold a file-system or database operation. *)
Definition is_storage (ev : event) : bool :=
  match ev with
  | EvExists _ | EvMakedirs _ | EvOpenW _ | EvConnect _ | EvExecute _
  | EvCommit | EvRollback => true
  | _ => false
  end.

(** The rows of [owie_logs] stored in the file. *)
Definition owie_rows (w : world) : list row :=
  match w_file w with
  | Some (Database db) =>
      match db !! "owie_logs" with
      | Some t => tbl_rows t
      | None => []
      end
  | _ => []
  end.

(** The world after one failed attempt that is retried: the request, the
    draw, the sleep. *)
Definition retried (E : env) (api_key : string) (lat lon : float)
    (exclude : string) (backoff : Z) (w : world) : world :=
  emit (EvSleep (float_of_int backoff
                 + env_uniform E (count is_uniform (w_trace w))))
    (emit (EvUniform 0 0.5)
       (emit (EvGet api_url (weather_params api_key lat lon exclude)) w)).

(** The world after [n] failed attempts in a row that are all retried. *)
Fixpoint after_failures (E : env) (api_key : string) (lat lon : float)
    (exclude : string) (n : nat) (backoff : Z) (w : world) : world :=
  match n with
  | O => w
  | S n' =>
      after_failures E api_key lat lon exclude n' (backoff * 2)
        (retried E api_key lat lon exclude backoff w)
  end.

Definition is_request_error (e : exn) : bool :=
  match e with RequestError _ => true | _ => false end.

(** What [get_weather_data] makes of a response. *)
Definition answer (response : response) : result value :=
  if status_code response =? 200 then
    match body_json response with
    | Some v => Return v
    | None => Raise JSONDecodeError
    end
  else if status_code response =? 429 then
    Raise (RuntimeError "Too many requests - API rate limit reached. Please try again later.")
  else Raise (RuntimeError "Error fetching weather data from the API.").

(** [w'] continues [w] with at most [n] requests, all to the weather API, and
    with no operation on the file system or the database. *)
Definition requests_only (n : nat) (w w' : world) : Prop :=
  exists new,
    w_trace w' = new ++ w_trace w
    /\ (count is_get new <= n)%nat
    /\ Forall (fun url => url = api_url) (requested new)
    /\ count is_storage new = 0%nat
    /\ w_dir w' = w_dir w /\ w_file w' = w_file w /\ w_txn w' = w_txn w.

(** The tables the file holds; none when it is missing or unreadable. *)
Definition tables (w : world) : gmap string table :=
  match w_file w with
  | Some (Database db) => db
  | _ => ∅
  end.

(** ** The values a payload holds

    The claims speak of the payload's [current.dt], [current.temp] and so
    on; these definitions read them off the parsed JSON directly. *)

Definition member (key : string) (v : value) : option value :=
  match v with
  | VDict d => assoc key d
  | _ => None
  end.

Definition first_item (v : value) : option value :=
  match v with
  | VList (x :: _) | VTuple (x :: _) => Some x
  | _ => None
  end.

Record reading := {
  rd_date_time : value;
  rd_temperature : value;
  rd_pressure : value;
  rd_humidity : value;
  rd_precipitation : value;
  rd_uv_index : value;
  rd_weather_id : value;
  rd_weather_main : value;
  rd_weather_description : value
}.

(** The precipitation is the rain of the last hour when there is some, and
    else the snow; each counts as 0.0 when the payload does not give it. *)
Definition read_weather (payload : value) : option reading :=
  current ← member "current" payload;
  weather_0 ← member "weather" current ≫= first_item;
  date_time ← member "dt" current;
  temperature ← member "temp" current;
  pressure ← member "pressure" current;
  humidity ← member "humidity" current;
  uv_index ← member "uvi" current;
  weather_id ← member "id" weather_0;
  weather_main ← member "main" weather_0;
  weather_description ← member "description" weather_0;
  let rain_1h := default (VFloat 0) (member "rain" current ≫= member "1h") in
  let snow_1h := default (VFloat 0) (member "snow" current ≫= member "1h") in
  Some {| rd_date_time := date_time;
          rd_temperature := temperature;
          rd_pressure := pressure;
          rd_humidity := humidity;
          rd_precipitation := if truthy rain_1h then rain_1h else snow_1h;
          rd_uv_index := uv_index;
          rd_weather_id := weather_id;
          rd_weather_main := weather_main;
          rd_weather_description := weather_description |}.

(** The declared type of column [name]. *)
Definition column_type (columns : list column) (name : string) : sqltype :=
  match List.find (fun c => String.eqb (col_name c) name) columns with
  | Some c => col_type c
  | None => BLOB
  end.




(** The dict [log_owie] hands to [insert_owie_log]. *)
Definition log_weather_data_of (rd : reading) : value :=
  VDict [ ("weather_id", rd_weather_id rd);
          ("weather_main", rd_weather_main rd);
          ("weather_description", rd_weather_description rd);
          ("temperature", rd_temperature rd);
          ("pressure", rd_pressure rd);
          ("humidity", rd_humidity rd);
          ("precipitation", rd_precipitation rd);
          ("uv_index", rd_uv_index rd) ].

(** None of the eight required values is null (the precipitation is not
    among them). *)
Definition complete (rd : reading) : bool :=
  negb (is_none (rd_temperature rd) || is_none (rd_pressure rd)
        || is_none (rd_date_time rd) || is_none (rd_humidity rd)
        || is_none (rd_uv_index rd) || is_none (rd_weather_id rd)
        || is_none (rd_weather_main rd)
        || is_none (rd_weather_description rd)).

(** The guard of [log_owie] passes. *)
Definition settings_present (s : Settings) : bool :=
  truthy (VStr (ow_api_key s)) && truthy (VStr (db_path s))
  && truthy (VFloat (lat s)) && truthy (VFloat (lon s)).

(** What [log_owie] answers. *)
Definition missing_settings_reply : value :=
  VTuple [VDict [("error", VStr "Missing required environment variables")];
          VInt 400].

Definition success_reply (body_part : string) (temperature pressure : value)
  : value :=
  VDict [ ("message", VStr "Logged owie details successfully");
          ("body_part", VStr body_part);
          ("temperature", temperature);
          ("pressure", pressure) ].

(** ** Concrete inputs *)

Definition equator : Settings :=
  {| ow_api_key := "key"; db_path := "data/data.db"; lat := 0; lon := 13.5 |}.

Definition quiet : env :=
  {| env_get := fun _ => Raise (RequestError "connection refused");
     env_uniform := fun _ => 0.25%float;
     env_mkdir_error := None;
     env_create_error := None;
     env_commit_error := None |}.

(** A payload as the One Call API sends it (fields the handler ignores left
    out). *)
Definition sunny : value :=
  VDict [ ("lat", VFloat 40.5); ("lon", VFloat (-74.25));
          ("current",
           VDict [ ("dt", VInt 1700000000); ("temp", VFloat 71.5);
                   ("pressure", VInt 1013); ("humidity", VInt 40);
                   ("uvi", VFloat 3.25);
                   ("weather",
                    VList [ VDict [ ("id", VInt 800); ("main", VStr "Clear");
                                    ("description", VStr "clear sky") ] ]) ]) ].

(** Two timeouts, then the payload. *)
Definition flaky : env :=
  {| env_get := fun n =>
       match n with
       | O | S O => Raise (RequestError "timed out")
       | _ => Return {| status_code := 200; body_json := Some sunny |}
       end;
     env_uniform := fun n => match n with O => 0.25%float | _ => 0.5%float end;
     env_mkdir_error := None;
     env_create_error := None;
     env_commit_error := None |}.

(** One timeout, then the rate limit. *)
Definition limited : env :=
  {| env_get := fun n =>
       match n with
       | O => Raise (RequestError "timed out")
       | _ => Return {| status_code := 429; body_json := None |}
       end;
     env_uniform := fun _ => 0.125%float;
     env_mkdir_error := None;
     env_create_error := None;
     env_commit_error := None |}.

Definition home_settings : Settings :=
  {| ow_api_key := "key"; db_path := "data/data.db"; lat := 40.5;
     lon := (-74.25) |}.

(** A payload whose list of weather conditions is empty. *)
Definition no_weather : value :=
  VDict [ ("current",
           VDict [ ("dt", VInt 1700000000); ("temp", VFloat 71.5);
                   ("pressure", VInt 1013); ("humidity", VInt 40);
                   ("uvi", VFloat 3.25); ("weather", VList []) ]) ].

Definition bare : env :=
  {| env_get := fun _ =>
       Return {| status_code := 200; body_json := Some no_weather |};
     env_uniform := fun _ => 0.25%float;
     env_mkdir_error := None;
     env_create_error := None;
     env_commit_error := None |}.

Definition fresh : world :=
  {| w_trace := []; w_dir := false; w_file := None; w_txn := None |}.

(** ** The rest of the module *)

(** The statements of the module body that run on import (lines 37 to 44):
    the settings are validated, and only then is the server announced. *)
Definition module_body (settings : Settings) : M unit :=
  validate_settings settings ;;; print "Starting server".

(** The settings [validate_settings] accepts. *)
Definition startup_ok (s : Settings) : bool :=
  truthy (VStr (ow_api_key s)) && truthy (VFloat (lat s))
  && truthy (VFloat (lon s)).

(** The exceptions the lookups of [log_owie] raise by themselves. *)
Definition is_lookup_error (e : exn) : bool :=
  match e with
  | AttributeError | TypeError | IndexError | KeyError => true
  | _ => false
  end.

(** One timeout, then a 200 whose body is not JSON. *)
Definition garbled : env :=
  {| env_get := fun n =>
       match n with
       | O => Raise (RequestError "timed out")
       | _ => Return {| status_code := 200; body_json := None |}
       end;
     env_uniform := fun _ => 0.125%float;
     env_mkdir_error := None;
     env_create_error := None;
     env_commit_error := None |}.

(** One timeout, then an exception that is no request error. *)
Definition broken : env :=
  {| env_get := fun n =>
       match n with
       | O => Raise (RequestError "timed out")
       | _ => Raise (OtherError "InvalidURL")
       end;
     env_uniform := fun _ => 0.125%float;
     env_mkdir_error := None;
     env_create_error := None;
     env_commit_error := None |}.

(** Does the path hold a slash, that is, a directory part. *)
Fixpoint contains_slash (p : string) : bool :=
  match p with
  | EmptyString => false
  | String c p' => is_slash c || contains_slash p'
  end.

(** The table [setup_database] creates. *)
Definition empty_owie_logs : table :=
  {| tbl_columns := owie_logs_columns; tbl_rows := [] |}.

(** [sqlite_sequence] as SQLite creates it. *)
Definition empty_sequence : table :=
  {| tbl_columns := sequence_columns; tbl_rows := [] |}.

(** The tables of a database after [setup_database] has run on it. *)
Definition set_up_tables (db : gmap string table) : gmap string table :=
  match db !! "owie_logs" with
  | Some _ => db
  | None => create_table "owie_logs" owie_logs_columns db
  end.

(** A first run in a place where nothing fails. *)
Definition calm : env :=
  {| env_get := fun _ => Return {| status_code := 200; body_json := Some sunny |};
     env_uniform := fun _ => 0.25%float;
     env_mkdir_error := None;
     env_create_error := None;
     env_commit_error := None |}.


Definition bare_settings : Settings :=
  {| ow_api_key := "key"; db_path := "data.db"; lat := 40.5; lon := (-74.25) |}.

(** The exceptions [insert_owie_log] lets through from reading
    [weather_data], from binding the parameters and from the INSERT. *)
Definition is_insert_error (e : exn) : bool :=
  match e with
  | KeyError | TypeError | OverflowError | SQLiteError _ => true
  | _ => false
  end.

(** A disk on which no commit goes through. *)
Definition full_disk : env :=
  {| env_get := fun _ => Return {| status_code := 200; body_json := Some sunny |};
     env_uniform := fun _ => 0.25%float;
     env_mkdir_error := None;
     env_create_error := None;
     env_commit_error := Some "database or disk is full" |}.

(** The reading of [sunny]. *)
Definition sunny_reading : reading :=
  {| rd_date_time := VInt 1700000000;
     rd_temperature := VFloat 71.5;
     rd_pressure := VInt 1013;
     rd_humidity := VInt 40;
     rd_precipitation := VFloat 0;
     rd_uv_index := VFloat 3.25;
     rd_weather_id := VInt 800;
     rd_weather_main := VStr "Clear";
     rd_weather_description := VStr "clear sky" |}.

(** A database that [setup_database] has set up and nothing else has
    touched. *)
Definition set_up : world :=
  {| w_trace := []; w_dir := true;
     w_file := Some (Database (create_table "owie_logs" owie_logs_columns ∅));
     w_txn := None |}.


(** The API answers 429 at once. *)
Definition throttled : env :=
  {| env_get := fun _ => Return {| status_code := 429; body_json := None |};
     env_uniform := fun _ => 0.25%float;
     env_mkdir_error := None;
     env_create_error := None;
     env_commit_error := None |}.

(** The payload has the JSON types the handler counts on: it is an object,
    and so are [current], [rain] and [snow] where present, and [weather],
    where present, is a list that starts with an object. *)
Definition is_dict (v : value) : bool :=
  match v with VDict _ => true | _ => false end.

Definition api_shaped (payload : value) : bool :=
  match payload with
  | VDict d =>
      match default (VDict []) (assoc "current" d) with
      | VDict current =>
          is_dict (default (VDict []) (assoc "rain" current))
          && is_dict (default (VDict []) (assoc "snow" current))
          && match default (VList [VDict []]) (assoc "weather" current) with
             | VList (VDict _ :: _) => true
             | _ => false
             end
      | _ => false
      end
  | _ => false
  end.

(** A payload without a temperature. *)
Definition no_temp : value :=
  VDict [ ("current",
           VDict [ ("dt", VInt 1700000000); ("pressure", VInt 1013);
                   ("humidity", VInt 40); ("uvi", VFloat 3.25);
                   ("weather",
                    VList [ VDict [ ("id", VInt 800); ("main", VStr "Clear");
                                    ("description", VStr "clear sky") ] ]) ]) ].

Definition templess : env :=
  {| env_get := fun _ => Return {| status_code := 200; body_json := Some no_temp |};
     env_uniform := fun _ => 0.25%float;
     env_mkdir_error := None;
     env_create_error := None;
     env_commit_error := None |}.

(** Settings that pass the start-up check with an empty [db_path]. *)
Definition pathless : Settings :=
  {| ow_api_key := "key"; db_path := ""; lat := 40.5; lon := (-74.25) |}.

(** The id of a row. *)
Definition row_id (r : row) : option Z :=
  match cell "id" r with
  | Some (SqlInteger n) => Some n
  | _ => None
  end.

(** A table with the columns of the program whose rows have ids, all
    different and none above [seq], the sequence of the table. *)
Definition well_kept (seq : Z) (t : table) : Prop :=
  tbl_columns t = owie_logs_columns
  /\ Forall (fun r => exists n, row_id r = Some n /\ n <= seq) (tbl_rows t)
  /\ NoDup (map row_id (tbl_rows t)).

(** The table [owie_logs] of the file, if there is one, is well kept, with
    the sequence [sqlite_sequence] has for it. *)
Definition kept (w : world) : Prop :=
  forall db t,
    w_file w = Some (Database db) -> db !! "owie_logs" = Some t ->
    well_kept (sequence_of db "owie_logs") t.

(** The file after one call that went through. *)
Definition logged : world := snd (log_owie calm home_settings "knee" fresh).

(** A payload with snow but no amount for it. *)
Definition null_snow : value :=
  VDict [ ("current",
           VDict [ ("dt", VInt 1700000000); ("temp", VFloat 30.5);
                   ("pressure", VInt 1013); ("humidity", VInt 40);
                   ("uvi", VFloat 0.5); ("snow", VDict [("1h", VNone)]);
                   ("weather",
                    VList [ VDict [ ("id", VInt 600); ("main", VStr "Snow");
                                    ("description", VStr "light snow") ] ]) ]) ].

Definition snowy : env :=
  {| env_get := fun _ => Return {| status_code := 200; body_json := Some null_snow |};
     env_uniform := fun _ => 0.25%float;
     env_mkdir_error := None;
     env_create_error := None;
     env_commit_error := None |}.

(** * Properties *)

(** ** The primitives, on small inputs *)

Example nan_is_bound_as_null : adapt (VFloat nan) = Return SqlNull.
Proof. reflexivity. Qed.

Example integer_in_real_column :
  apply_affinity REAL (SqlInteger 1013) = SqlReal 1013.
Proof. reflexivity. Qed.

Example whole_real_in_integer_column :
  apply_affinity INTEGER (SqlReal 1700000000) = SqlInteger 1700000000
  /\ apply_affinity INTEGER (SqlReal 800.5) = SqlReal 800.5.
Proof. split; reflexivity. Qed.

Example integer_in_text_column :
  apply_affinity TEXT (SqlInteger 800) = SqlText "800".
Proof. reflexivity. Qed.

(** A value of the type of its column is stored as it is, and so is NULL in
    any column. *)
Lemma apply_affinity_own_type :
  (forall n, apply_affinity INTEGER (SqlInteger n) = SqlInteger n)
  /\ (forall x, apply_affinity REAL (SqlReal x) = SqlReal x)
  /\ (forall s, apply_affinity TEXT (SqlText s) = SqlText s)
  /\ (forall ty, apply_affinity ty SqlNull = SqlNull).
Proof. repeat split. by intros []. Qed.

Example dirname_default : dirname "data/data.db" = "data".
Proof. reflexivity. Qed.

Example dirname_bare : dirname "data.db" = "".
Proof. reflexivity. Qed.

Example dirname_root : dirname "/data.db" = "/".
Proof. reflexivity. Qed.

Example dirname_nested : dirname "/var//lib/ouch//data.db" = "/var//lib/ouch".
Proof. reflexivity. Qed.

Example range_of_attempts : py_range 1 (5 + 1) = [1; 2; 3; 4; 5].
Proof. reflexivity. Qed.

Example first_sleep : (float_of_int 1 + 0.25)%float = 1.25%float.
Proof. reflexivity. Qed.

Example negative_zero_is_falsy : truthy (VFloat (-0)%float) = false.
Proof. reflexivity. Qed.

Example read_sunny :
  rd_precipitation <$> read_weather sunny = Some (VFloat 0)
  /\ rd_weather_main <$> read_weather sunny = Some (VStr "Clear").
Proof. split; reflexivity. Qed.

(** A database path without a directory part cannot be created:
    [os.makedirs('')] raises. *)
Example setup_database_bare_filename :
  fst (setup_database quiet
         {| ow_api_key := "key"; db_path := "data.db"; lat := 1; lon := 2 |}
         {| w_trace := []; w_dir := true; w_file := None; w_txn := None |})
  = Raise (RuntimeError "Error creating database file or directory: [Errno 2] No such file or directory: ''").
Proof. reflexivity. Qed.

(** ** Settings that are falsy *)

(** C10: an empty [ow_api_key], or a [lat] or [lon] that compares equal to
    0.0, counts as missing. [validate_settings] raises the ValueError whose
    message lists every such field after the fixed prefix, and [log_owie]
    returns the "Missing required environment variables" body with 400,
    without any request and without touching the database. *)
Theorem falsy_settings_are_missing (E : env) (s : Settings)
    (body_part : string) (w : world) :
  ow_api_key s = "" \/ PrimFloat.eqb (lat s) 0 = true
    \/ PrimFloat.eqb (lon s) 0 = true ->
  (exists missing_keys,
      validate_settings s w
      = (Raise (ValueError ("Missing required environment variables: "
                            +:+ String.concat ", " missing_keys)),
         emit (EvPrint "Validating settings") w)
      /\ (ow_api_key s = "" -> In "ow_api_key" missing_keys)
      /\ (PrimFloat.eqb (lat s) 0 = true -> In "lat" missing_keys)
      /\ (PrimFloat.eqb (lon s) 0 = true -> In "lon" missing_keys))
  /\ log_owie E s body_part w
     = (Return (VTuple [VDict [("error", VStr "Missing required environment variables")];
                        VInt 400]),
        w).
Proof.
  intros H. unfold validate_settings, log_owie, bind, print, perform, truthy.
  destruct (ow_api_key s) as [|c k] eqn:Hk;
    destruct (PrimFloat.eqb (lat s) 0) eqn:Hlat;
    destruct (PrimFloat.eqb (lon s) 0) eqn:Hlon; cbn [negb app orb].
  all: try (exfalso; destruct H as [H | [H | H]]; discriminate).
  all: split; [eexists; split; [reflexivity|] | ].
  all: try (destruct (db_path s); reflexivity).
  all: repeat split; intros; try discriminate; cbn; tauto.
Qed.

Lemma falsy_settings_are_missing_witness :
  (exists missing_keys,
      validate_settings equator fresh
      = (Raise (ValueError ("Missing required environment variables: "
                            +:+ String.concat ", " missing_keys)),
         emit (EvPrint "Validating settings") fresh)
      /\ (ow_api_key equator = "" -> In "ow_api_key" missing_keys)
      /\ (PrimFloat.eqb (lat equator) 0 = true -> In "lat" missing_keys)
      /\ (PrimFloat.eqb (lon equator) 0 = true -> In "lon" missing_keys))
  /\ log_owie quiet equator "knee" fresh
     = (Return (VTuple [VDict [("error", VStr "Missing required environment variables")];
                        VInt 400]),
        fresh).
Proof.
  apply (falsy_settings_are_missing quiet equator "knee" fresh).
  right; left; reflexivity.
Defined.

(** ** The routes *)

(** The module registers two routes, not one, and the application has more
    routes still. *)
Lemma app_routes_not_single :
  length (List.filter is_api_route app_routes) <> 1%nat
  /\ length app_routes <> 1%nat.
Proof. split; discriminate. Qed.

(** C6 (amended): the decorators of the module register exactly two routes,
    GET / and POST /owie/{body_part}, in this order; every other route of
    the application is one [FastAPI()] came with, for the schema and the
    documentation pages. POST /owie/{body_part} is the only POST route and
    the only one that logs an event; GET / answers Hello World and does
    nothing else. *)
Theorem app_routes_are_home_and_log_owie (E : env) (s : Settings) (w : world) :
  List.filter is_api_route app_routes
  = [ ApiRoute GET "/" Home; ApiRoute POST "/owie/{body_part}" LogOwie ]
  /\ List.filter (fun r => negb (is_api_route r)) app_routes = FastAPI
  /\ List.filter is_post app_routes = [ ApiRoute POST "/owie/{body_part}" LogOwie ]
  /\ home w = (Return (VTuple [VDict [("message", VStr "Hello World")]; VInt 200]), w).
Proof. repeat split. Qed.

(** ** The retry loop *)

Section RetryLoop.
Context (E : env) (api_key : string) (lat lon : float) (exclude : string).

Local Abbreviation params := (weather_params api_key lat lon exclude).
Local Abbreviation retried := (retried E api_key lat lon exclude).
Local Abbreviation after_failures := (after_failures E api_key lat lon exclude).
Local Abbreviation retry_loop := (retry_loop E api_key lat lon exclude).

(** One iteration of the loop, by the outcome of its request. *)
Lemma retry_loop_cons retries attempt attempts backoff w :
  retry_loop retries (attempt :: attempts) backoff w
  = let w1 := emit (EvGet api_url params) w in
    match env_get E (count is_get (w_trace w)) with
    | Return response =>
        if status_code response =? 200 then
          match body_json response with
          | Some v => (Return (Some v), w1)
          | None => (Raise JSONDecodeError, w1)
          end
        else if status_code response =? 429 then
          (Raise (RuntimeError "Too many requests - API rate limit reached. Please try again later."), w1)
        else (Raise (RuntimeError "Error fetching weather data from the API."), w1)
    | Raise (RequestError msg) =>
        if attempt =? retries then
          (Raise (RuntimeError ("Request failed after " +:+ pretty retries
                                +:+ " retries: " +:+ msg)), w1)
        else
          retry_loop retries attempts (backoff * 2)
            (retried backoff w)
    | Raise e => (Raise e, w1)
    end.
Proof.
  cbn [retry_loop]. unfold bind at 1. unfold try_except, bind at 1.
  unfold client_get at 1.
  destruct (env_get E (count is_get (w_trace w))) as [response | e].
  - destruct (status_code response =? 200).
    + unfold response_json, lift, bind. destruct (body_json response); reflexivity.
    + destruct (status_code response =? 429); reflexivity.
  - destruct e; try reflexivity.
    destruct (attempt =? retries); reflexivity.
Qed.

Lemma requests_only_refl n w : requests_only n w w.
Proof.
  exists []. repeat split; auto using Forall_nil. cbn. lia.
Qed.

Lemma requests_only_get n w :
  requests_only (S n) w (emit (EvGet api_url params) w).
Proof.
  exists [EvGet api_url params]. repeat split; cbn; auto. lia.
Qed.

Lemma requests_only_retried n backoff w w' :
  requests_only n (retried backoff w) w' -> requests_only (S n) w w'.
Proof.
  intros (new & Htr & Hn & Hurl & Hst & Hd & Hf & Ht).
  exists (new ++ [EvSleep (float_of_int backoff
                           + env_uniform E (count is_uniform (w_trace w)));
                  EvUniform 0 0.5; EvGet api_url params]).
  repeat split; auto.
  - rewrite Htr. cbn. by rewrite <- app_assoc.
  - unfold count in *. rewrite List.filter_app, length_app. cbn. lia.
  - clear -Hurl. induction new as [|[] new IH]; cbn in *; auto.
    inversion Hurl; subst. constructor; auto.
  - unfold count in *. rewrite List.filter_app, length_app, Hst. reflexivity.
Qed.

(** The loop only issues requests, at most one per attempt, and when it runs
    out of attempts none of them was the last one ([attempt == retries]). *)
Lemma retry_loop_requests_only retries attempts : forall backoff w,
  requests_only (length attempts) w
    (snd (retry_loop retries attempts backoff w))
  /\ (fst (retry_loop retries attempts backoff w)
      = Return None ->
      Forall (fun attempt => attempt <> retries) attempts).
Proof.
  induction attempts as [|attempt attempts IH]; intros backoff w.
  - split; [apply requests_only_refl | constructor].
  - rewrite retry_loop_cons. cbv zeta.
    destruct (env_get E (count is_get (w_trace w))) as [response | e].
    + destruct (status_code response =? 200); [destruct (body_json response)|
        destruct (status_code response =? 429)];
        (split; [apply requests_only_get | discriminate]).
    + destruct e; try (split; [apply requests_only_get | discriminate]).
      destruct (attempt =? retries) eqn:Hlast.
      * split; [apply requests_only_get | discriminate].
      * destruct (IH (backoff * 2) (retried backoff w)) as [Hreq Hnone].
        split; [eapply requests_only_retried; exact Hreq |].
        intros Hr. constructor; [| auto].
        intros ->. rewrite Z.eqb_refl in Hlast. discriminate.
Qed.

Lemma retried_gets backoff w :
  count is_get (w_trace (retried backoff w)) = S (count is_get (w_trace w)).
Proof. reflexivity. Qed.

Lemma retried_draws backoff w :
  count is_uniform (w_trace (retried backoff w))
  = S (count is_uniform (w_trace w)).
Proof. reflexivity. Qed.

(** A run of attempts that all fail with a request error, none of them the
    last one, leaves the rest of the loop to run with the backoff doubled
    once per failure. *)
Lemma retry_loop_failures retries attempts : forall rest backoff w,
  Forall (fun attempt => attempt <> retries) attempts ->
  (forall i, (i < length attempts)%nat ->
             exists msg, env_get E (i + count is_get (w_trace w))
                         = Raise (RequestError msg)) ->
  retry_loop retries (attempts ++ rest) backoff w
  = retry_loop retries rest (backoff * 2 ^ Z.of_nat (length attempts))
      (after_failures (length attempts) backoff w).
Proof.
  induction attempts as [|attempt attempts IH]; intros rest backoff w Hne Hfail.
  - cbn. by rewrite Z.mul_1_r.
  - inversion Hne as [|? ? Hattempt Hne']; subst.
    cbn [app]. rewrite retry_loop_cons. cbv zeta.
    destruct (Hfail 0%nat) as [msg Hmsg]; [cbn; lia|]. cbn in Hmsg. rewrite Hmsg.
    apply Z.eqb_neq in Hattempt. rewrite Hattempt.
    rewrite IH; auto.
    + cbn [length after_failures]. f_equal.
      rewrite Nat2Z.inj_succ, Z.pow_succ_r by lia. lia.
    + intros i Hi. destruct (Hfail (S i)) as [m Hm]; [cbn; lia|].
      exists m. rewrite <- Hm, retried_gets. f_equal. lia.
Qed.

Lemma after_failures_gets n : forall backoff w,
  count is_get (w_trace (after_failures n backoff w))
  = (n + count is_get (w_trace w))%nat.
Proof.
  induction n as [|n IH]; intros backoff w; [reflexivity|].
  cbn [after_failures]. rewrite IH, retried_gets. lia.
Qed.

Lemma after_failures_sleeps n : forall backoff w,
  sleeps (w_trace (after_failures n backoff w))
  = rev (map (fun i => (float_of_int (backoff * 2 ^ Z.of_nat i)
                        + env_uniform E (i + count is_uniform (w_trace w)))%float)
             (seq 0 n))
    ++ sleeps (w_trace w).
Proof.
  induction n as [|n IH]; intros backoff w; [reflexivity|].
  cbn [after_failures]. rewrite IH.
  cbn [seq map rev]. rewrite <- seq_shift, map_map.
  rewrite <- app_assoc. f_equal.
  - f_equal. apply map_ext. intros i. f_equal.
    + f_equal. rewrite Nat2Z.inj_succ, Z.pow_succ_r by lia. lia.
    + f_equal. rewrite retried_draws. lia.
  - cbn. rewrite Z.mul_1_r. reflexivity.
Qed.

Lemma after_failures_draws n : forall backoff w,
  draws (w_trace (after_failures n backoff w))
  = repeat (0%float, 0.5%float) n ++ draws (w_trace w).
Proof.
  induction n as [|n IH]; intros backoff w; [reflexivity|].
  cbn [after_failures]. rewrite IH. cbn [repeat].
  rewrite repeat_cons, <- app_assoc. reflexivity.
Qed.

Lemma after_failures_sleep_count n backoff w :
  length (sleeps (w_trace (after_failures n backoff w)))
  = (n + length (sleeps (w_trace w)))%nat.
Proof.
  rewrite after_failures_sleeps, length_app, length_rev, length_map, length_seq.
  reflexivity.
Qed.

(** *** [get_weather_data], with its five attempts *)

Lemma get_weather_data_no_key w :
  api_key = "" ->
  get_weather_data E api_key lat lon exclude w
  = (Raise (ValueError "API key is required."), w).
Proof.
  intros Hkey. unfold get_weather_data. rewrite Hkey. reflexivity.
Qed.

Lemma get_weather_data_loop w :
  api_key <> "" ->
  get_weather_data E api_key lat lon exclude w
  = match retry_loop 5 [1; 2; 3; 4; 5] 1 w with
    | (Return r, w') => (Return (match r with Some v => v | None => VNone end), w')
    | (Raise e, w') => (Raise e, w')
    end.
Proof.
  intros Hkey. unfold get_weather_data.
  destruct api_key; [congruence|]. reflexivity.
Qed.

(** After [k < 5] failed attempts the loop is at attempt [k + 1] with backoff
    [2 ^ k]. *)
Lemma retry_loop_at k w :
  (k < 5)%nat ->
  (forall i, (i < k)%nat ->
             exists msg, env_get E (i + count is_get (w_trace w))
                         = Raise (RequestError msg)) ->
  exists rest,
    retry_loop 5 [1; 2; 3; 4; 5] 1 w
    = retry_loop 5 (Z.of_nat (S k) :: rest) (2 ^ Z.of_nat k)
        (after_failures k 1 w)
    /\ (rest = [] <-> k = 4%nat).
Proof.
  intros Hk Hfail.
  assert (Hsplit : exists first rest,
             [1; 2; 3; 4; 5] = first ++ Z.of_nat (S k) :: rest
             /\ length first = k
             /\ Forall (fun attempt => attempt <> 5) first
             /\ (rest = [] <-> k = 4%nat)).
  { exists (firstn k [1; 2; 3; 4; 5]), (skipn (S k) [1; 2; 3; 4; 5]).
    clear Hfail.
    do 5 (destruct k as [|k];
          [cbn; repeat split; repeat constructor;
           intros; (lia || discriminate) |]).
    lia. }
  destruct Hsplit as (first & rest & Heq & Hlen & Hne & Hrest).
  exists rest. split; [|exact Hrest].
  rewrite Heq, retry_loop_failures; auto.
  - rewrite Hlen, Z.mul_1_l. reflexivity.
  - rewrite Hlen. exact Hfail.
Qed.

Lemma get_weather_data_response k w response :
  api_key <> "" ->
  (k < 5)%nat ->
  (forall i, (i < k)%nat ->
             exists msg, env_get E (i + count is_get (w_trace w))
                         = Raise (RequestError msg)) ->
  env_get E (k + count is_get (w_trace w)) = Return response ->
  get_weather_data E api_key lat lon exclude w
  = (answer response, emit (EvGet api_url params) (after_failures k 1 w)).
Proof.
  intros Hkey Hk Hfail Hget.
  rewrite get_weather_data_loop by assumption.
  destruct (retry_loop_at k w Hk Hfail) as (rest & -> & _).
  rewrite retry_loop_cons. cbv zeta. rewrite after_failures_gets, Hget.
  unfold answer.
  destruct (status_code response =? 200); [destruct (body_json response)|
    destruct (status_code response =? 429)]; reflexivity.
Qed.

Lemma get_weather_data_other_error k w e :
  api_key <> "" ->
  (k < 5)%nat ->
  (forall i, (i < k)%nat ->
             exists msg, env_get E (i + count is_get (w_trace w))
                         = Raise (RequestError msg)) ->
  env_get E (k + count is_get (w_trace w)) = Raise e ->
  is_request_error e = false ->
  get_weather_data E api_key lat lon exclude w
  = (Raise e, emit (EvGet api_url params) (after_failures k 1 w)).
Proof.
  intros Hkey Hk Hfail Hget He.
  rewrite get_weather_data_loop by assumption.
  destruct (retry_loop_at k w Hk Hfail) as (rest & -> & _).
  rewrite retry_loop_cons. cbv zeta. rewrite after_failures_gets, Hget.
  destruct e; try reflexivity. discriminate.
Qed.

Lemma get_weather_data_gives_up w :
  api_key <> "" ->
  (forall i, (i < 5)%nat ->
             exists msg, env_get E (i + count is_get (w_trace w))
                         = Raise (RequestError msg)) ->
  exists msg,
    env_get E (4 + count is_get (w_trace w)) = Raise (RequestError msg)
    /\ get_weather_data E api_key lat lon exclude w
       = (Raise (RuntimeError ("Request failed after 5 retries: " +:+ msg)),
          emit (EvGet api_url params) (after_failures 4 1 w)).
Proof.
  intros Hkey Hfail.
  destruct (Hfail 4%nat) as [msg Hmsg]; [lia|].
  exists msg. split; [exact Hmsg|].
  rewrite get_weather_data_loop by assumption.
  destruct (retry_loop_at 4 w) as (rest & -> & _); [lia | intros; apply Hfail; lia |].
  rewrite retry_loop_cons. cbv zeta. rewrite after_failures_gets, Hmsg.
  reflexivity.
Qed.

(** A value returned from the loop is the parsed body of a response with
    status 200, received on one of its attempts. *)
Lemma retry_loop_returns retries attempts : forall backoff w v,
  fst (retry_loop retries attempts backoff w) = Return (Some v) ->
  exists n response,
    (count is_get (w_trace w) <= n < count is_get (w_trace w) + length attempts)%nat
    /\ env_get E n = Return response
    /\ status_code response = 200
    /\ body_json response = Some v.
Proof.
  induction attempts as [|attempt attempts IH]; intros backoff w v.
  - discriminate.
  - rewrite retry_loop_cons. cbv zeta.
    destruct (env_get E (count is_get (w_trace w))) as [response | e] eqn:Hget.
    + destruct (status_code response =? 200) eqn:Hstatus.
      * destruct (body_json response) as [v'|] eqn:Hbody; [|discriminate].
        intros [= ->]. exists (count is_get (w_trace w)), response.
        apply Z.eqb_eq in Hstatus. cbn [length]. repeat split; auto; lia.
      * destruct (status_code response =? 429); discriminate.
    + destruct e; try discriminate.
      destruct (attempt =? retries); [discriminate|].
      intros Hret. apply IH in Hret as (n & response & Hn & H).
      rewrite retried_gets in Hn.
      exists n, response. cbn [length]. split; [lia | exact H].
Qed.

Lemma get_weather_data_requests_only w :
  requests_only 5 w (snd (get_weather_data E api_key lat lon exclude w)).
Proof.
  destruct (decide (api_key = "")) as [Hkey | Hkey].
  - rewrite get_weather_data_no_key by assumption. apply requests_only_refl.
  - rewrite get_weather_data_loop by assumption.
    pose proof (retry_loop_requests_only 5 [1; 2; 3; 4; 5] 1 w) as [Hreq _].
    by destruct (retry_loop 5 [1; 2; 3; 4; 5] 1 w) as [[] ?].
Qed.

(** C5: a call of [get_weather_data] ends (the loop recurses on its five
    attempts) having issued at most 5 requests, each to the weather API
    endpoint, and nothing else outside; the loop never runs out of attempts
    without a [return] or a [raise], so a returned value is the parsed body
    of a response with status 200 and every other call raises. *)
Theorem get_weather_data_at_most_five_requests w :
  exists r w',
    get_weather_data E api_key lat lon exclude w = (r, w')
    /\ requests_only 5 w w'
    /\ fst (retry_loop 5 (py_range 1 (5 + 1)) 1 w) <> Return None
    /\ match r with
       | Return v =>
           exists n response,
             (count is_get (w_trace w) <= n < count is_get (w_trace w) + 5)%nat
             /\ env_get E n = Return response
             /\ status_code response = 200
             /\ body_json response = Some v
       | Raise _ => True
       end.
Proof.
  change (py_range 1 (5 + 1)) with [1; 2; 3; 4; 5].
  destruct (get_weather_data E api_key lat lon exclude w) as [r w'] eqn:Hrun. exists r, w'.
  split; [reflexivity|].
  pose proof (retry_loop_requests_only 5 [1; 2; 3; 4; 5] 1 w) as [Hreq Hnone].
  assert (Hfall : fst (retry_loop 5 [1; 2; 3; 4; 5] 1 w) <> Return None).
  { intros Hr. apply Hnone in Hr.
    pose proof (proj1 (List.Forall_forall _ _) Hr 5) as H5.
    apply H5; [cbn; tauto | reflexivity]. }
  destruct (decide (api_key = "")) as [Hkey | Hkey].
  - rewrite get_weather_data_no_key in Hrun by assumption.
    injection Hrun as <- <-.
    split; [apply requests_only_refl | split; [exact Hfall | exact I]].
  - rewrite get_weather_data_loop in Hrun by assumption.
    pose proof (retry_loop_returns 5 [1; 2; 3; 4; 5] 1 w) as Hret.
    destruct (retry_loop 5 [1; 2; 3; 4; 5] 1 w) as [[[v|]|e] w1];
      cbn [fst snd] in *; injection Hrun as <- <-.
    + split; [exact Hreq | split; [exact Hfall |]].
      destruct (Hret v eq_refl) as (n & response & Hn & H).
      exists n, response. cbn [length] in Hn. split; [lia | exact H].
    + congruence.
    + split; [exact Hreq | split; [exact Hfall | exact I]].
Qed.

(** C1: with a non-empty key, when the first [k] attempts fail with a
    request error, (a) if [k < 5] and attempt [k + 1] gets a response with
    status 200 whose body parses, the call returns the parsed body, after
    [k + 1] requests and [k] sleeps; (b) if [k = 5], the call raises the
    RuntimeError "Request failed after 5 retries: ..." carrying the fifth
    error, after 5 requests and 4 sleeps. *)
Theorem get_weather_data_retries_request_errors (k : nat) (w : world) :
  api_key <> "" ->
  (forall i, (i < k)%nat ->
             exists msg, env_get E (i + count is_get (w_trace w))
                         = Raise (RequestError msg)) ->
  (forall response v,
      (k < 5)%nat ->
      env_get E (k + count is_get (w_trace w)) = Return response ->
      status_code response = 200 ->
      body_json response = Some v ->
      get_weather_data E api_key lat lon exclude w
      = (Return v, emit (EvGet api_url params) (after_failures k 1 w))
      /\ count is_get (w_trace (snd (get_weather_data E api_key lat lon exclude w)))
         = (S k + count is_get (w_trace w))%nat
      /\ length (sleeps (w_trace (snd (get_weather_data E api_key lat lon exclude w))))
         = (k + length (sleeps (w_trace w)))%nat)
  /\ (k = 5%nat ->
      exists msg,
        env_get E (4 + count is_get (w_trace w)) = Raise (RequestError msg)
        /\ get_weather_data E api_key lat lon exclude w
           = (Raise (RuntimeError ("Request failed after 5 retries: " +:+ msg)),
              emit (EvGet api_url params) (after_failures 4 1 w))
        /\ count is_get (w_trace (snd (get_weather_data E api_key lat lon exclude w)))
           = (5 + count is_get (w_trace w))%nat
        /\ length (sleeps (w_trace (snd (get_weather_data E api_key lat lon exclude w))))
           = (4 + length (sleeps (w_trace w)))%nat).
Proof.
  intros Hkey Hfail. split.
  - intros response v Hk Hget Hstatus Hbody.
    rewrite (get_weather_data_response k w response) by assumption.
    unfold answer. rewrite Hstatus, Hbody. cbn [Z.eqb Pos.eqb fst snd].
    split; [reflexivity|].
    change (w_trace (emit ?ev ?w0)) with (ev :: w_trace w0).
    split.
    + change (count is_get (?ev :: ?tr)) with (S (count is_get tr)).
      rewrite after_failures_gets. reflexivity.
    + cbn [sleeps]. apply after_failures_sleep_count.
  - intros ->.
    destruct (get_weather_data_gives_up w Hkey Hfail) as (msg & Hmsg & Hrun).
    exists msg. rewrite Hrun. cbn [fst snd].
    split; [exact Hmsg | split; [reflexivity|]].
    change (w_trace (emit ?ev ?w0)) with (ev :: w_trace w0).
    split.
    + change (count is_get (?ev :: ?tr)) with (S (count is_get tr)).
      rewrite after_failures_gets. reflexivity.
    + cbn [sleeps]. apply after_failures_sleep_count.
Qed.

(** Any outcome but a request error ends the call with the request that
    met it. *)
Lemma get_weather_data_stops (k : nat) (w : world) :
  api_key <> "" ->
  (k < 5)%nat ->
  (forall i, (i < k)%nat ->
             exists msg, env_get E (i + count is_get (w_trace w))
                         = Raise (RequestError msg)) ->
  (forall msg, env_get E (k + count is_get (w_trace w))
               <> Raise (RequestError msg)) ->
  snd (get_weather_data E api_key lat lon exclude w)
  = emit (EvGet api_url params) (after_failures k 1 w).
Proof.
  intros Hkey Hk Hfail Hother.
  destruct (env_get E (k + count is_get (w_trace w))) as [response | e] eqn:Hget.
  - by rewrite (get_weather_data_response k w response).
  - rewrite (get_weather_data_other_error k w e); auto.
    destruct e; try reflexivity. by destruct (Hother msg).
Qed.

(** C9: after [k < 5] attempts that failed with a request error, an attempt
    whose outcome is anything but a request error ends the call on the spot:
    its request is the last effect (no sleep, no further request). In
    particular a response whose status is not 200 raises RuntimeError, with
    the rate-limit message for 429 and the generic one otherwise. *)
Theorem non_200_response_is_not_retried (k : nat) (w : world)
    (outcome : result response) :
  api_key <> "" ->
  (k < 5)%nat ->
  (forall i, (i < k)%nat ->
             exists msg, env_get E (i + count is_get (w_trace w))
                         = Raise (RequestError msg)) ->
  env_get E (k + count is_get (w_trace w)) = outcome ->
  (forall msg, outcome <> Raise (RequestError msg)) ->
  snd (get_weather_data E api_key lat lon exclude w)
  = emit (EvGet api_url params) (after_failures k 1 w)
  /\ count is_get (w_trace (snd (get_weather_data E api_key lat lon exclude w)))
     = (S k + count is_get (w_trace w))%nat
  /\ length (sleeps (w_trace (snd (get_weather_data E api_key lat lon exclude w))))
     = (k + length (sleeps (w_trace w)))%nat
  /\ (forall response,
         outcome = Return response ->
         status_code response <> 200 ->
         fst (get_weather_data E api_key lat lon exclude w)
         = Raise (RuntimeError
                    (if status_code response =? 429
                     then "Too many requests - API rate limit reached. Please try again later."
                     else "Error fetching weather data from the API."))).
Proof.
  intros Hkey Hk Hfail Hget Hother.
  assert (Hend : snd (get_weather_data E api_key lat lon exclude w)
                 = emit (EvGet api_url params) (after_failures k 1 w)).
  { apply get_weather_data_stops; auto. by rewrite Hget. }
  rewrite Hend. split; [reflexivity|].
  change (w_trace (emit ?ev ?w0)) with (ev :: w_trace w0).
  split; [|split].
  - change (count is_get (?ev :: ?tr)) with (S (count is_get tr)).
    rewrite after_failures_gets. reflexivity.
  - cbn [sleeps]. apply after_failures_sleep_count.
  - intros response -> Hstatus.
    rewrite (get_weather_data_response k w response) by assumption.
    unfold answer. apply Z.eqb_neq in Hstatus. rewrite Hstatus.
    destruct (status_code response =? 429); reflexivity.
Qed.

(** C2: when the first [k <= 5] attempts fail with a request error (and the
    next one, if any, does not), the call has slept [min k 4] times; the
    i-th sleep (from 0) lasts [2 ^ i + jitter], the jitter being the value of
    the i-th [random.uniform(0, 0.5)] of the call. The fifth failure is
    followed by no draw and no sleep. *)
Theorem backoff_doubles_with_jitter (k : nat) (w : world) :
  api_key <> "" ->
  (k <= 5)%nat ->
  (forall i, (i < k)%nat ->
             exists msg, env_get E (i + count is_get (w_trace w))
                         = Raise (RequestError msg)) ->
  ((k < 5)%nat ->
   forall msg, env_get E (k + count is_get (w_trace w))
               <> Raise (RequestError msg)) ->
  snd (get_weather_data E api_key lat lon exclude w)
  = emit (EvGet api_url params) (after_failures (Nat.min k 4) 1 w)
  /\ sleeps (w_trace (snd (get_weather_data E api_key lat lon exclude w)))
     = rev (map (fun i => (float_of_int (2 ^ Z.of_nat i)
                           + env_uniform E (i + count is_uniform (w_trace w)))%float)
                (seq 0 (Nat.min k 4)))
       ++ sleeps (w_trace w)
  /\ draws (w_trace (snd (get_weather_data E api_key lat lon exclude w)))
     = repeat (0%float, 0.5%float) (Nat.min k 4) ++ draws (w_trace w).
Proof.
  intros Hkey Hk Hfail Hnext.
  assert (Hend : snd (get_weather_data E api_key lat lon exclude w)
                 = emit (EvGet api_url params) (after_failures (Nat.min k 4) 1 w)).
  { destruct (decide (k = 5%nat)) as [-> | Hk5].
    - destruct (get_weather_data_gives_up w Hkey Hfail) as (msg & _ & ->).
      reflexivity.
    - assert (Hlt : (k < 5)%nat) by lia.
      replace (Nat.min k 4) with k by lia.
      apply get_weather_data_stops; auto. }
  rewrite Hend. split; [reflexivity|].
  change (w_trace (emit ?ev ?w0)) with (ev :: w_trace w0). cbn [sleeps draws].
  split.
  - rewrite after_failures_sleeps. f_equal. f_equal. apply map_ext.
    intros i. by rewrite Z.mul_1_l.
  - apply after_failures_draws.
Qed.

End RetryLoop.

Lemma get_weather_data_retries_request_errors_witness :
  get_weather_data flaky "key" 40.5 (-74.25) default_exclude fresh
  = (Return sunny,
     emit (EvGet api_url (weather_params "key" 40.5 (-74.25) default_exclude))
       (after_failures flaky "key" 40.5 (-74.25) default_exclude 2 1 fresh))
  /\ fst (get_weather_data quiet "key" 40.5 (-74.25) default_exclude fresh)
     = Raise (RuntimeError "Request failed after 5 retries: connection refused").
Proof.
  split.
  - destruct (get_weather_data_retries_request_errors
                flaky "key" 40.5 (-74.25) default_exclude 2 fresh) as [Hok _].
    + discriminate.
    + intros i Hi. exists "timed out". destruct i as [|[|i]]; [reflexivity | reflexivity | lia].
    + destruct (Hok {| status_code := 200; body_json := Some sunny |} sunny)
        as [Hrun _]; [lia | reflexivity | reflexivity | reflexivity |].
      exact Hrun.
  - destruct (get_weather_data_retries_request_errors
                quiet "key" 40.5 (-74.25) default_exclude 5 fresh) as [_ Hfive].
    + discriminate.
    + intros i Hi. exists "connection refused". reflexivity.
    + destruct (Hfive eq_refl) as (msg & Hmsg & Hrun & _).
      rewrite Hrun. cbn [fst]. injection Hmsg as <-. reflexivity.
Defined.

Lemma non_200_response_is_not_retried_witness :
  get_weather_data limited "key" 40.5 (-74.25) default_exclude fresh
  = (Raise (RuntimeError "Too many requests - API rate limit reached. Please try again later."),
     emit (EvGet api_url (weather_params "key" 40.5 (-74.25) default_exclude))
       (after_failures limited "key" 40.5 (-74.25) default_exclude 1 1 fresh))
  /\ length (sleeps (w_trace (snd (get_weather_data limited "key" 40.5 (-74.25)
                                     default_exclude fresh)))) = 1%nat.
Proof.
  destruct (non_200_response_is_not_retried
              limited "key" 40.5 (-74.25) default_exclude 1 fresh
              (Return {| status_code := 429; body_json := None |}))
    as (Hw & _ & Hsleeps & Hraise).
  - discriminate.
  - lia.
  - intros i Hi. exists "timed out". destruct i as [|i]; [reflexivity | lia].
  - reflexivity.
  - discriminate.
  - split; [|exact Hsleeps].
    rewrite (surjective_pairing (get_weather_data _ _ _ _ _ _)).
    rewrite Hw, (Hraise _ eq_refl); [reflexivity | discriminate].
Defined.

Lemma backoff_doubles_with_jitter_witness :
  sleeps (w_trace (snd (get_weather_data quiet "key" 40.5 (-74.25)
                          default_exclude fresh)))
  = [8.25%float; 4.25%float; 2.25%float; 1.25%float]
  /\ draws (w_trace (snd (get_weather_data quiet "key" 40.5 (-74.25)
                            default_exclude fresh)))
     = repeat (0%float, 0.5%float) 4.
Proof.
  destruct (backoff_doubles_with_jitter
              quiet "key" 40.5 (-74.25) default_exclude 5 fresh)
    as (_ & Hsleeps & Hdraws).
  - discriminate.
  - lia.
  - intros i Hi. exists "connection refused". reflexivity.
  - lia.
  - split; [rewrite Hsleeps | rewrite Hdraws]; reflexivity.
Defined.

(** ** The tables of the database *)

Lemma with_sequence_table_lookup_ne db name :
  name <> "sqlite_sequence" -> with_sequence_table db !! name = db !! name.
Proof.
  intros Hname. unfold with_sequence_table.
  destruct (db !! "sqlite_sequence"); [reflexivity|].
  apply lookup_insert_ne. congruence.
Qed.

Lemma with_sequence_table_lookup db :
  with_sequence_table db !! "sqlite_sequence"
  = Some (default empty_sequence (db !! "sqlite_sequence")).
Proof.
  unfold with_sequence_table.
  destruct (db !! "sqlite_sequence") eqn:Hl; [exact Hl|].
  apply lookup_insert_eq.
Qed.

(** CREATE TABLE for the table of the program: the table is there, empty;
    [sqlite_sequence] is there, as it was if it was; the others are as they
    were. *)
Lemma create_owie_logs_lookup db :
  create_table "owie_logs" owie_logs_columns db !! "owie_logs"
  = Some empty_owie_logs.
Proof.
  unfold create_table. cbn [existsb owie_logs_columns col_autoincrement orb].
  rewrite with_sequence_table_lookup_ne by discriminate.
  apply lookup_insert_eq.
Qed.

Lemma create_owie_logs_sequence db :
  create_table "owie_logs" owie_logs_columns db !! "sqlite_sequence"
  = Some (default empty_sequence (db !! "sqlite_sequence")).
Proof.
  unfold create_table. cbn [existsb owie_logs_columns col_autoincrement orb].
  rewrite with_sequence_table_lookup.
  by rewrite lookup_insert_ne by discriminate.
Qed.


Lemma create_owie_logs_sequence_of db :
  sequence_of (create_table "owie_logs" owie_logs_columns db) "owie_logs"
  = sequence_of db "owie_logs".
Proof.
  unfold sequence_of. rewrite create_owie_logs_sequence.
  by destruct (db !! "sqlite_sequence").
Qed.

Lemma set_up_tables_lookup db :
  set_up_tables db !! "owie_logs"
  = Some (default empty_owie_logs (db !! "owie_logs")).
Proof.
  unfold set_up_tables.
  destruct (db !! "owie_logs") eqn:Hl; [exact Hl|].
  apply create_owie_logs_lookup.
Qed.



Lemma set_up_tables_sequence_of db :
  sequence_of (set_up_tables db) "owie_logs" = sequence_of db "owie_logs".
Proof.
  unfold set_up_tables.
  destruct (db !! "owie_logs"); [reflexivity|].
  apply create_owie_logs_sequence_of.
Qed.


(** ** [setup_database] *)

Section Storage.
Context (E : env) (s : Settings).

Local Ltac run_setup :=
  unfold setup_database, with_connect, try_except, bind, os_path_exists,
    os_makedirs, open_w_close, connect, cursor_execute, connection_commit,
    connection_rollback, run_statement, raise, ret, tables;
  cbn -[lookup insert owie_logs_columns dirname create_table].

(** On a database file, [setup_database] adds the table when it is missing
    and changes nothing else. *)
Lemma setup_database_existing w db :
  w_file w = Some (Database db) ->
  fst (setup_database E s w) = Return tt
  /\ w_file (snd (setup_database E s w)) = Some (Database (set_up_tables db))
  /\ w_dir (snd (setup_database E s w)) = w_dir w
  /\ w_txn (snd (setup_database E s w)) = None.
Proof.
  intros Hf. destruct w as [tr d f t]. cbn in Hf. subst f. run_setup.
  unfold set_up_tables.
  destruct (db !! "owie_logs"); cbn -[create_table]; auto.
Qed.

(** What [setup_database] leaves of a world, whatever the file was: the
    result, the directory, the file and the transaction. *)
Lemma setup_database_cases w :
  let r := fst (setup_database E s w) in
  let w' := snd (setup_database E s w) in
  match w_file w with
  | Some (Database db) =>
      r = Return tt /\ w_dir w' = w_dir w /\ w_txn w' = None
      /\ w_file w' = Some (Database (set_up_tables db))
  | Some NotADatabase =>
      r = Raise (SQLiteError "file is not a database")
      /\ w_dir w' = w_dir w /\ w_txn w' = None /\ w_file w' = w_file w
  | None =>
      match dirname (db_path s), w_dir w, env_mkdir_error E with
      | EmptyString, _, _ =>
          r = Raise (RuntimeError ("Error creating database file or directory: "
                                   +:+ "[Errno 2] No such file or directory: ''"))
          /\ w_dir w' = w_dir w /\ w_txn w' = w_txn w /\ w_file w' = None
      | String _ _, false, Some e =>
          r = Raise (RuntimeError ("Error creating database file or directory: "
                                   +:+ e))
          /\ w_dir w' = false /\ w_txn w' = w_txn w /\ w_file w' = None
      | String _ _, _, _ =>
          match env_create_error E with
          | Some e =>
              r = Raise (RuntimeError ("Error creating database file or directory: "
                                       +:+ e))
              /\ w_dir w' = true /\ w_txn w' = w_txn w /\ w_file w' = None
          | None =>
              r = Return tt /\ w_dir w' = true /\ w_txn w' = None
              /\ w_file w' = Some (Database (set_up_tables ∅))
          end
      end
  end.
Proof.
  destruct w as [tr d [[|db]|] t]; cbv zeta; cbn [w_file w_dir w_txn].
  - run_setup. auto.
  - pose proof (setup_database_existing
                  {| w_trace := tr; w_dir := d; w_file := Some (Database db);
                     w_txn := t |} db eq_refl) as H.
    cbn [w_dir] in H. tauto.
  - run_setup.
    destruct (dirname (db_path s)); [cbn; auto|].
    destruct d; [|destruct (env_mkdir_error E)];
      cbn -[lookup insert owie_logs_columns create_table]; auto;
      destruct (env_create_error E);
      cbn -[lookup insert owie_logs_columns create_table]; auto;
      unfold set_up_tables; rewrite lookup_empty;
      cbn -[create_table]; auto.
Qed.


(** A set-up that succeeds leaves a database with the table, holding the
    rows it held before (none when it was missing). *)
Lemma setup_database_ok w w' :
  setup_database E s w = (Return tt, w') ->
  w_file w' = Some (Database (set_up_tables (tables w)))
  /\ exists t,
      set_up_tables (tables w) !! "owie_logs" = Some t
      /\ tbl_rows t = owie_rows w
      /\ tbl_columns t = match tables w !! "owie_logs" with
                         | Some t0 => tbl_columns t0
                         | None => owie_logs_columns
                         end.
Proof.
  intros Hrun. pose proof (setup_database_cases w) as H.
  rewrite Hrun in H. cbv zeta in H. cbn [fst snd] in H.
  assert (Hfile : w_file w' = Some (Database (set_up_tables (tables w)))).
  { unfold tables. destruct (w_file w) as [[|db]|].
    - by destruct H as [? _].
    - by destruct H as (_ & _ & _ & Hfile).
    - destruct (dirname (db_path s)); [by destruct H as [? _]|].
      destruct (w_dir w); [|destruct (env_mkdir_error E)];
        try destruct (env_create_error E);
        destruct H as (Hr & _ & _ & Hfile); (discriminate Hr || exact Hfile). }
  split; [exact Hfile|].
  rewrite set_up_tables_lookup. eexists. split; [reflexivity|].
  unfold owie_rows.
  assert (Heq : match w_file w with
                | Some (Database db) =>
                    match db !! "owie_logs" with
                    | Some t => tbl_rows t
                    | None => []
                    end
                | _ => []
                end
                = match tables w !! "owie_logs" with
                  | Some t => tbl_rows t
                  | None => []
                  end).
  { unfold tables. destruct (w_file w) as [[|db]|]; try reflexivity. }
  rewrite Heq. by destruct (tables w !! "owie_logs").
Qed.

Lemma setup_database_table w w' :
  setup_database E s w = (Return tt, w') ->
  exists db t,
    w_file w' = Some (Database db)
    /\ db !! "owie_logs" = Some t
    /\ tbl_rows t = owie_rows w
    /\ sequence_of db "owie_logs" = sequence_of (tables w) "owie_logs".
Proof.
  intros (Hf & t & Hl & Hrows & _)%setup_database_ok.
  exists (set_up_tables (tables w)), t.
  repeat split; try assumption. apply set_up_tables_sequence_of.
Qed.

(** *** [insert_owie_log] *)

Lemma adapt_all_cons v vs cells :
  adapt_all (v :: vs) = Return cells ->
  exists c cs, cells = c :: cs /\ adapt v = Return c /\ adapt_all vs = Return cs.
Proof.
  cbn [adapt_all]. destruct (adapt v) as [c|]; [|discriminate].
  destruct (adapt_all vs) as [cs|]; [|discriminate].
  intros [= <-]. eauto.
Qed.

Lemma cell_new_row t id assigned name c :
  has_column t name = true ->
  cell name assigned = Some c ->
  cell name (new_row t id assigned)
  = Some (apply_affinity (column_type (tbl_columns t) name) c).
Proof.
  unfold has_column, new_row, column_type. intros Hcol Hcell.
  induction (tbl_columns t) as [|col cols IH]; [discriminate|].
  cbn [existsb map cell List.find] in *.
  destruct (String.eqb (col_name col) name) eqn:Hname.
  - apply String.eqb_eq in Hname. rewrite Hname, Hcell. reflexivity.
  - apply IH. exact Hcol.
Qed.

Lemma insert_into_rows name t seq names cells t' o :
  insert_into name t seq names cells = Return (t', o) ->
  tbl_columns t' = tbl_columns t
  /\ tbl_rows t' = tbl_rows t ++ [new_row t (next_id t seq) (combine names cells)]
  /\ o = (if generates_id t names then Some (next_id t seq) else None)
  /\ null_violation t (new_row t (next_id t seq) (combine names cells)) = None.
Proof.
  unfold insert_into.
  destruct (generates_id t names && _); [discriminate|].
  destruct (null_violation t _); [discriminate|]. by intros [= <- <-].
Qed.

(** *** [sqlite_sequence] under an INSERT *)

Lemma names_table_sequence_row name seq :
  names_table name (sequence_row name seq) = true.
Proof. unfold names_table. cbn. apply String.eqb_refl. Qed.

Lemma get_seq_set_seq name seq rows :
  get_seq name (set_seq name seq rows) = seq.
Proof.
  induction rows as [|r rows IH]; cbn [set_seq get_seq].
  - by rewrite names_table_sequence_row.
  - destruct (names_table name r) eqn:Hr; cbn [get_seq].
    + by rewrite names_table_sequence_row.
    + by rewrite Hr.
Qed.

Lemma set_sequence_lookup_ne name seq db other :
  other <> "sqlite_sequence" -> set_sequence name seq db !! other = db !! other.
Proof. intros H. unfold set_sequence. apply lookup_insert_ne. congruence. Qed.

Lemma sequence_of_set_sequence name seq db :
  sequence_of (set_sequence name seq db) name = seq.
Proof.
  unfold sequence_of, set_sequence. rewrite lookup_insert_eq.
  cbn [tbl_rows]. apply get_seq_set_seq.
Qed.

(** What an INSERT that goes through has done to the tables: the row is in
    the table, the other tables but [sqlite_sequence] are as they were, and
    the sequence of the table is the id generated, if one was. *)
Lemma run_insert_tables name names params db db' :
  name <> "sqlite_sequence" ->
  run_statement (InsertInto name names params) db = Return (Some db') ->
  exists t cells t' o,
    db !! name = Some t
    /\ forallb (has_column t) names = true
    /\ adapt_all params = Return cells
    /\ insert_into name t (sequence_of db name) names cells = Return (t', o)
    /\ db' !! name = Some t'
    /\ (forall other, other <> name -> other <> "sqlite_sequence" ->
                      db' !! other = db !! other)
    /\ sequence_of db' name = default (sequence_of db name) o.
Proof.
  intros Hname. cbn [run_statement].
  destruct (db !! name) as [t|] eqn:Hl; [|discriminate].
  destruct (forallb (has_column t) names) eqn:Hcols; [|discriminate].
  cbn [negb].
  destruct (adapt_all params) as [cells|] eqn:Hcells; [|discriminate].
  destruct (insert_into _ _ _ _ _) as [[t' [id|]]|] eqn:Hins; [| |discriminate];
    intros [= <-]; exists t, cells, t'; eexists;
    (split; [reflexivity|]); (split; [exact Hcols|]); (split; [reflexivity|]);
    (split; [exact Hins|]).
  - rewrite set_sequence_lookup_ne by congruence.
    rewrite lookup_insert_eq. split; [reflexivity|]. split.
    + intros other Hother Hseq.
      rewrite set_sequence_lookup_ne by assumption.
      apply lookup_insert_ne. congruence.
    + apply sequence_of_set_sequence.
  - rewrite lookup_insert_eq. split; [reflexivity|]. split.
    + intros other Hother Hseq. apply lookup_insert_ne. congruence.
    + cbn [default]. unfold sequence_of.
      by rewrite lookup_insert_ne by congruence.
Qed.

(** An insert that succeeds has run the INSERT on the tables of the file
    and committed its outcome. *)
Lemma insert_owie_log_runs w w' db date_time body_part rd :
  w_file w = Some (Database db) ->
  insert_owie_log E s date_time body_part (log_weather_data_of rd) w
  = (Return tt, w') ->
  exists db',
    run_statement
      (InsertInto "owie_logs" insert_columns
         [ date_time; VStr body_part; rd_temperature rd; rd_pressure rd;
           rd_humidity rd; rd_precipitation rd; rd_uv_index rd;
           rd_weather_id rd; rd_weather_main rd; rd_weather_description rd ])
      db
    = Return (Some db')
    /\ w_file w' = Some (Database db').
Proof.
  intros Hf Hrun. destruct w as [tr d f tx]. cbn in Hf. subst f.
  unfold insert_owie_log, with_connect, execute_insert, log_weather_data_of,
    try_except, bind, lift, connect, cursor_execute, connection_commit,
    connection_rollback, raise, ret in Hrun.
  cbn -[run_statement insert_columns] in Hrun.
  destruct (run_statement _ db) as [[db'|]|] eqn:Hstmt;
    cbn -[run_statement insert_columns] in Hrun; try discriminate.
  - destruct (env_commit_error E); cbn in Hrun; [discriminate|].
    injection Hrun as <-. by exists db'.
  - exfalso. revert Hstmt. cbn [run_statement].
    destruct (db !! "owie_logs"); [|discriminate].
    destruct (negb _); [discriminate|].
    destruct (adapt_all _); [|discriminate].
    by destruct (insert_into _ _ _ _ _) as [[? []]|].
Qed.


End Storage.

(** ** [log_owie] *)

Section Handler.
Context (E : env) (s : Settings).

Lemma py_get_inv obj key dflt v :
  py_get obj key dflt = Return v ->
  exists d, obj = VDict d /\ v = default dflt (assoc key d).
Proof.
  destruct obj; try discriminate. intros [= <-]. eauto.
Qed.

Lemma member_of_get obj key v :
  py_get obj key VNone = Return v ->
  is_none v = false ->
  member key obj = Some v.
Proof.
  intros (d & -> & ->)%py_get_inv Hv. cbn in *.
  destruct (assoc key d); [reflexivity | discriminate].
Qed.

Lemma member_1h_of_get current key x y :
  py_get current key (VDict []) = Return x ->
  py_get x "1h" (VFloat 0) = Return y ->
  default (VFloat 0) (member key current ≫= member "1h") = y.
Proof.
  intros (d & -> & ->)%py_get_inv (dx & Hx & ->)%py_get_inv. cbn in *.
  destruct (assoc key d) as [x|]; cbn in *.
  - rewrite Hx. reflexivity.
  - by injection Hx as <-.
Qed.

Lemma member_current_of_get payload current key v :
  py_get payload "current" (VDict []) = Return current ->
  member key current = Some v ->
  member "current" payload = Some current.
Proof.
  intros (d & -> & ->)%py_get_inv Hv. cbn in *.
  destruct (assoc "current" d); [reflexivity | discriminate].
Qed.

Lemma first_weather_of_get current weather weather_0 v :
  py_get current "weather" (VList [VDict []]) = Return weather ->
  py_first weather = Return weather_0 ->
  member "id" weather_0 = Some v ->
  member "weather" current ≫= first_item = Some weather_0.
Proof.
  intros (d & -> & ->)%py_get_inv Hfirst Hv. cbn in *.
  destruct (assoc "weather" d) as [weather|]; cbn in *.
  - destruct weather as [| | | |[|]|[|]|[|]|]; try discriminate;
      injection Hfirst as <-; (reflexivity || discriminate).
  - injection Hfirst as <-. discriminate.
Qed.

(** The lookups of [log_owie], when they succeed and find no null among the
    required values, find what [read_weather] reads. *)
Lemma read_weather_of_gets payload current humidity rain rain_1h precipitation
    uv_index weather weather_0 weather_id weather_main weather_description
    temperature pressure date_time :
  py_get payload "current" (VDict []) = Return current ->
  py_get current "humidity" VNone = Return humidity ->
  py_get current "rain" (VDict []) = Return rain ->
  py_get rain "1h" (VFloat 0) = Return rain_1h ->
  precipitation = (if truthy rain_1h then rain_1h
                   else default (VFloat 0)
                          (member "snow" current ≫= member "1h")) ->
  py_get current "uvi" VNone = Return uv_index ->
  py_get current "weather" (VList [VDict []]) = Return weather ->
  py_first weather = Return weather_0 ->
  py_get weather_0 "id" VNone = Return weather_id ->
  py_get weather_0 "main" VNone = Return weather_main ->
  py_get weather_0 "description" VNone = Return weather_description ->
  py_get current "temp" VNone = Return temperature ->
  py_get current "pressure" VNone = Return pressure ->
  py_get current "dt" VNone = Return date_time ->
  is_none temperature || is_none pressure || is_none date_time
  || is_none humidity || is_none uv_index || is_none weather_id
  || is_none weather_main || is_none weather_description = false ->
  read_weather payload
  = Some {| rd_date_time := date_time; rd_temperature := temperature;
            rd_pressure := pressure; rd_humidity := humidity;
            rd_precipitation := precipitation; rd_uv_index := uv_index;
            rd_weather_id := weather_id; rd_weather_main := weather_main;
            rd_weather_description := weather_description |}.
Proof.
  intros Hcur Hhum Hrain H1h -> Huvi Hw Hfirst Hid Hmain Hdesc Htemp Hpres Hdt
    Hcomplete.
  repeat (apply orb_false_elim in Hcomplete as [Hcomplete ?]).
  repeat match goal with
         | H : py_get _ _ VNone = Return _ |- _ =>
             apply member_of_get in H; [|assumption]
         end.
  unfold read_weather.
  rewrite (member_current_of_get _ _ _ _ Hcur Hdt). cbn [mbind option_bind].
  rewrite (first_weather_of_get _ _ _ _ Hw Hfirst Hid). cbn [mbind option_bind].
  rewrite Hdt, Htemp, Hpres, Hhum, Huvi, Hid, Hmain, Hdesc.
  cbn [mbind option_bind].
  rewrite (member_1h_of_get _ _ _ _ Hrain H1h). reflexivity.
Qed.

Local Ltac invert_step H :=
  cbv beta iota in H;
  match type of H with
  | (let (_, _) := ?m in _) = _ =>
      let Hstep := fresh "Hstep" in destruct m eqn:Hstep; try discriminate H
  | match ?m with _ => _ end = _ =>
      let Hstep := fresh "Hstep" in destruct m eqn:Hstep; try discriminate H
  end.

(** A call of [log_owie] that returns anything but the missing-settings
    reply has fetched a payload, found every required value in it, set the
    database up, inserted the log and answered with the success reply. *)
Lemma log_owie_success body_part w v w' :
  log_owie E s body_part w = (Return v, w') ->
  v <> missing_settings_reply ->
  exists payload w1 rd w2,
    get_weather_data E (ow_api_key s) (lat s) (lon s) default_exclude w
    = (Return payload, w1)
    /\ read_weather payload = Some rd
    /\ setup_database E s w1 = (Return tt, w2)
    /\ insert_owie_log E s (rd_date_time rd) body_part (log_weather_data_of rd) w2
       = (Return tt, w')
    /\ v = success_reply body_part (rd_temperature rd) (rd_pressure rd).
Proof.
  intros Hrun Hv. unfold log_owie in Hrun.
  destruct (_ || _) eqn:Hguard.
  { injection Hrun as <- <-. by destruct Hv. }
  unfold bind, lift, ret, raise in Hrun.
  repeat invert_step Hrun.
  cbv beta iota in Hrun.
  match type of Hrun with
  | (if ?b then _ else _) _ = _ => destruct b eqn:Hcomplete; [discriminate|]
  end.
  repeat invert_step Hrun. injection Hrun as <- <-.
  (* the precipitation: [rain_1h or snow_1h] *)
  match goal with
  | Hprec : (if truthy ?rain_1h then _ else _) ?w0 = (Return ?prec, ?w1),
    Hrain : py_get ?current "rain" _ = Return _ |- _ =>
      assert (Hp : w1 = w0
                   /\ prec = if truthy rain_1h then rain_1h
                             else default (VFloat 0)
                                    (member "snow" current ≫= member "1h"));
      [ destruct (truthy rain_1h); cbv beta iota in Hprec;
        [ by injection Hprec as <- <-
        | destruct (py_get current "snow" (VDict [])) eqn:Hsnow;
          [|discriminate Hprec];
          injection Hprec as Hsnow_1h <-;
          by rewrite (member_1h_of_get _ _ _ _ Hsnow Hsnow_1h) ]
      | destruct Hp as [-> Hp]; clear Hprec ]
  end.
  repeat match goal with u : unit |- _ => destruct u end.
  do 2 eexists. eexists {| rd_date_time := _ |}. eexists.
  split; [reflexivity|].
  split; [eapply read_weather_of_gets; eassumption|].
  repeat split; eassumption.
Qed.

(** With a payload that lacks a required value (absent or null), [log_owie]
    raises in the world the fetch left: before [setup_database] and
    [insert_owie_log]. *)
Lemma log_owie_incomplete_payload body_part w payload w1 :
  settings_present s = true ->
  get_weather_data E (ow_api_key s) (lat s) (lon s) default_exclude w
  = (Return payload, w1) ->
  (forall rd, read_weather payload = Some rd -> complete rd = false) ->
  exists e, log_owie E s body_part w = (Raise e, w1).
Proof.
  intros Hs Hget Hmissing. unfold settings_present in Hs.
  repeat (apply andb_prop in Hs as [Hs ?]).
  unfold log_owie.
  repeat match goal with H : truthy _ = true |- _ => rewrite H; clear H end.
  cbn [negb orb]. unfold bind, lift, ret, raise. rewrite Hget.
  repeat (cbv beta iota;
          match goal with
          | |- exists e, (let (_, _) := (if truthy ?x then _ else _) _ in _) = _ =>
              destruct (truthy x) eqn:?
          | |- exists e, (let (_, _) := match ?m with _ => _ end in _) = _ =>
              destruct m eqn:?; [|by eexists]
          | |- exists e, match ?m with _ => _ end = _ =>
              destruct m eqn:?; [|by eexists]
          end).
  all: cbv beta iota.
  all: match goal with
       | |- exists e, (if ?b then _ else _) _ = _ =>
           destruct b eqn:Hcomplete; [by eexists | exfalso]
       end.
  all: assert (Hread : exists rd, read_weather payload = Some rd
                                  /\ complete rd = true);
    [ eexists; split;
      [ eapply read_weather_of_gets; try eassumption; reflexivity
      | unfold complete; cbn [rd_temperature rd_pressure rd_date_time
                                rd_humidity rd_uv_index rd_weather_id
                                rd_weather_main rd_weather_description];
        by rewrite Hcomplete ]
    | destruct Hread as (rd & Hread & Hc);
      rewrite (Hmissing _ Hread) in Hc; discriminate Hc ].
Qed.

Lemma read_weather_current payload rd :
  read_weather payload = Some rd ->
  exists current,
    member "current" payload = Some current
    /\ member "dt" current = Some (rd_date_time rd)
    /\ member "temp" current = Some (rd_temperature rd)
    /\ member "pressure" current = Some (rd_pressure rd).
Proof.
  unfold read_weather. intros H.
  destruct (member "current" payload) as [current|]; [|discriminate].
  exists current. cbn [mbind option_bind] in H.
  repeat match type of H with
         | context [match ?m with _ => _ end] =>
             destruct m; cbn [mbind option_bind] in H; [|discriminate H]
         | context [?m ≫= _] =>
             destruct m; cbn [mbind option_bind] in H; [|discriminate H]
         end.
  injection H as <-. auto.
Qed.


(** C8: a call of [log_owie] that returns, and not with the missing-settings
    reply, returns exactly the dict of the message, the [body_part] of the
    request and the [current.temp] and [current.pressure] of the payload
    fetched by this call. *)
Theorem log_owie_reply (body_part : string) (w w' : world) (v : value) :
  log_owie E s body_part w = (Return v, w') ->
  v <> missing_settings_reply ->
  exists payload current t p,
    fst (get_weather_data E (ow_api_key s) (lat s) (lon s) default_exclude w)
    = Return payload
    /\ member "current" payload = Some current
    /\ member "temp" current = Some t
    /\ member "pressure" current = Some p
    /\ v = VDict [ ("message", VStr "Logged owie details successfully");
                   ("body_part", VStr body_part);
                   ("temperature", t);
                   ("pressure", p) ].
Proof.
  intros Hrun Hv.
  destruct (log_owie_success _ _ _ _ Hrun Hv)
    as (payload & w1 & rd & w2 & Hget & Hread & _ & _ & ->).
  destruct (read_weather_current _ _ Hread) as (current & Hcur & _ & Ht & Hp).
  exists payload, current, (rd_temperature rd), (rd_pressure rd).
  rewrite Hget. auto.
Qed.

End Handler.


Lemma log_owie_reply_witness :
  exists payload current t p,
    fst (get_weather_data flaky (ow_api_key home_settings) (lat home_settings)
           (lon home_settings) default_exclude fresh)
    = Return payload
    /\ member "current" payload = Some current
    /\ member "temp" current = Some t
    /\ member "pressure" current = Some p
    /\ success_reply "knee" (VFloat 71.5) (VInt 1013)
       = VDict [ ("message", VStr "Logged owie details successfully");
                 ("body_part", VStr "knee");
                 ("temperature", t);
                 ("pressure", p) ].
Proof.
  apply (log_owie_reply flaky home_settings "knee" fresh
           (snd (log_owie flaky home_settings "knee" fresh))
           (success_reply "knee" (VFloat 71.5) (VInt 1013))).
  - vm_compute. reflexivity.
  - discriminate.
Defined.

(** The file after the first call on the payload [sunny]: the integers 1013
    and 40 of the payload are reals in their REAL columns, the row has the
    id 1, and [sqlite_sequence] has noted it. *)
Example logged_tables :
  owie_rows logged
  = [ [ ("weather_id", SqlInteger 800); ("weather_main", SqlText "Clear");
        ("weather_description", SqlText "clear sky"); ("id", SqlInteger 1);
        ("date_time", SqlInteger 1700000000); ("body_part", SqlText "knee");
        ("humidity", SqlReal 40); ("precipitation", SqlReal 0);
        ("uv_index", SqlReal 3.25); ("temperature", SqlReal 71.5);
        ("pressure", SqlReal 1013) ] ]
  /\ tables logged !! "sqlite_sequence"
     = Some {| tbl_columns := sequence_columns;
               tbl_rows := [sequence_row "owie_logs" 1] |}.
Proof. split; vm_compute; reflexivity. Qed.

(** C4, at a payload whose [weather] list is empty: the first weather entry's
    id, main and description are missing, and [log_owie] raises IndexError
    (from [weather[0]]) where RuntimeError is documented. It does so before
    any operation on the database. *)
Theorem log_owie_empty_weather_raises_index_error :
  read_weather no_weather = None
  /\ fst (log_owie bare home_settings "knee" fresh) = Raise IndexError
  /\ w_file (snd (log_owie bare home_settings "knee" fresh)) = w_file fresh
  /\ count is_storage (w_trace (snd (log_owie bare home_settings "knee" fresh)))
     = 0%nat.
Proof. vm_compute. repeat split. Qed.

(** * Further properties *)

(** ** Start-up *)

(** X1: the module body gets past [validate_settings] exactly when the key
    is not empty and neither coordinate compares equal to 0.0; [db_path]
    plays no part. Then both lines are printed; otherwise the ValueError
    ends the import before "Starting server". *)
Theorem module_body_starts_iff_valid (s : Settings) (w : world) :
  (fst (module_body s w) = Return tt
   <-> ow_api_key s <> "" /\ PrimFloat.eqb (lat s) 0 = false
       /\ PrimFloat.eqb (lon s) 0 = false)
  /\ (fst (module_body s w) = Return tt ->
      w_trace (snd (module_body s w))
      = EvPrint "Starting server" :: EvPrint "Validating settings" :: w_trace w)
  /\ (fst (module_body s w) <> Return tt ->
      (exists msg, fst (module_body s w) = Raise (ValueError msg))
      /\ w_trace (snd (module_body s w))
         = EvPrint "Validating settings" :: w_trace w).
Proof.
  unfold module_body, validate_settings, bind, print, perform, truthy.
  destruct (ow_api_key s) as [|c k];
    destruct (PrimFloat.eqb (lat s) 0);
    destruct (PrimFloat.eqb (lon s) 0); cbn.
  all: repeat split; try discriminate; try congruence; try tauto; eauto.
  all: try (intros (? & ? & ?); congruence).
Qed.

(** ** More on [get_weather_data] *)

Section RetryLoopShape.
Context (E : env) (api_key : string) (lat lon : float) (exclude : string).

Local Abbreviation params := (weather_params api_key lat lon exclude).
Local Abbreviation retried := (retried E api_key lat lon exclude).
Local Abbreviation after_failures := (after_failures E api_key lat lon exclude).
Local Abbreviation retry_loop := (retry_loop E api_key lat lon exclude).

(** Whatever the environment answers, the loop performs some [n] retried
    failures and then either one last request or, out of attempts, nothing
    more. *)
Lemma retry_loop_shape retries attempts : forall backoff w,
  exists n,
    (forall i, (i < n)%nat ->
               exists msg, env_get E (i + count is_get (w_trace w))
                           = Raise (RequestError msg))
    /\ (((n < length attempts)%nat
         /\ snd (retry_loop retries attempts backoff w)
            = emit (EvGet api_url params) (after_failures n backoff w)
         /\ fst (retry_loop retries attempts backoff w) <> Return None)
        \/ (n = length attempts
            /\ snd (retry_loop retries attempts backoff w)
               = after_failures n backoff w
            /\ fst (retry_loop retries attempts backoff w) = Return None)).
Proof.
  induction attempts as [|attempt attempts IH]; intros backoff w.
  - exists 0%nat. split; [intros i Hi; lia | right; auto].
  - rewrite retry_loop_cons. cbv zeta.
    assert (Hlast : forall r : result (option value),
               r <> Return None ->
               exists n,
                 (forall i, (i < n)%nat ->
                            exists msg, env_get E (i + count is_get (w_trace w))
                                        = Raise (RequestError msg))
                 /\ (((n < length (attempt :: attempts))%nat
                      /\ snd (r, emit (EvGet api_url params) w)
                         = emit (EvGet api_url params) (after_failures n backoff w)
                      /\ fst (r, emit (EvGet api_url params) w) <> Return None)
                     \/ (n = length (attempt :: attempts)
                         /\ snd (r, emit (EvGet api_url params) w)
                            = after_failures n backoff w
                         /\ fst (r, emit (EvGet api_url params) w) = Return None))).
    { intros r Hr. exists 0%nat. split; [intros i Hi; lia|].
      left. cbn [length fst snd]. repeat split; [lia | exact Hr]. }
    destruct (env_get E (count is_get (w_trace w))) as [response | e] eqn:Hget.
    + destruct (status_code response =? 200); [destruct (body_json response)|
        destruct (status_code response =? 429)]; apply Hlast; discriminate.
    + destruct e; try (apply Hlast; discriminate).
      destruct (attempt =? retries); [apply Hlast; discriminate|].
      destruct (IH (backoff * 2) (retried backoff w)) as (n & Hfail & Hcases).
      exists (S n). split.
      * intros [|i] Hi; [eauto|].
        destruct (Hfail i) as [m Hm]; [lia|].
        exists m. rewrite <- Hm, retried_gets. f_equal. lia.
      * cbn [length].
        destruct Hcases as [(Hn & Hw & Hr) | (Hn & Hw & Hr)]; [left | right];
          (repeat split; [lia | exact Hw | exact Hr]).
Qed.

(** X2: whatever the outside answers, a call with a key performs [n <= 4]
    failed attempts, each followed by one draw and one sleep, and then
    exactly one last request; all its requests are the same GET of the
    weather API with the same parameters. So the requests number [n + 1],
    the sleeps and the draws [n], and the first [n] outcomes were request
    errors. *)
Theorem get_weather_data_trace_shape (w : world) :
  api_key <> "" ->
  exists n,
    (n <= 4)%nat
    /\ snd (get_weather_data E api_key lat lon exclude w)
       = emit (EvGet api_url params) (after_failures n 1 w)
    /\ (forall i, (i < n)%nat ->
                  exists msg, env_get E (i + count is_get (w_trace w))
                              = Raise (RequestError msg))
    /\ count is_get (w_trace (snd (get_weather_data E api_key lat lon exclude w)))
       = (S n + count is_get (w_trace w))%nat
    /\ length (sleeps (w_trace (snd (get_weather_data E api_key lat lon exclude w))))
       = (n + length (sleeps (w_trace w)))%nat
    /\ length (draws (w_trace (snd (get_weather_data E api_key lat lon exclude w))))
       = (n + length (draws (w_trace w)))%nat.
Proof.
  intros Hkey. rewrite get_weather_data_loop by assumption.
  destruct (retry_loop_shape 5 [1; 2; 3; 4; 5] 1 w) as (n & Hfail & Hcases).
  pose proof (retry_loop_requests_only E api_key lat lon exclude
                5 [1; 2; 3; 4; 5] 1 w) as [_ Hnone].
  destruct Hcases as [(Hn & Hw & _) | (_ & _ & Hr)].
  - exists n. cbn [length] in Hn.
    assert (Hsnd : snd (match retry_loop 5 [1; 2; 3; 4; 5] 1 w with
                        | (Return r, w') =>
                            (Return (match r with Some v => v | None => VNone end), w')
                        | (Raise e, w') => (Raise e, w')
                        end)
                   = emit (EvGet api_url params) (after_failures n 1 w)).
    { rewrite <- Hw. by destruct (retry_loop 5 [1; 2; 3; 4; 5] 1 w) as [[] ?]. }
    rewrite Hsnd. change (w_trace (emit ?ev ?w0)) with (ev :: w_trace w0).
    split; [lia|]. split; [reflexivity|]. split; [exact Hfail|].
    split; [|split].
    + change (count is_get (?ev :: ?tr)) with (S (count is_get tr)).
      by rewrite after_failures_gets.
    + cbn [sleeps]. apply after_failures_sleep_count.
    + cbn [draws]. by rewrite after_failures_draws, length_app, repeat_length.
  - apply Hnone in Hr.
    pose proof (proj1 (List.Forall_forall _ _) Hr 5) as H5.
    exfalso. apply H5; [cbn; tauto | reflexivity].
Qed.

(** What [get_weather_data] can raise: the ValueError of the empty key, the
    decode error of a 200 body, a RuntimeError, or whatever exception other
    than a request error a request met. *)
Lemma retry_loop_raises retries attempts : forall backoff w e,
  fst (retry_loop retries attempts backoff w) = Raise e ->
  e = JSONDecodeError
  \/ (exists msg, e = RuntimeError msg)
  \/ (exists n, env_get E n = Raise e /\ is_request_error e = false).
Proof.
  induction attempts as [|attempt attempts IH]; intros backoff w e.
  - discriminate.
  - rewrite retry_loop_cons. cbv zeta.
    destruct (env_get E (count is_get (w_trace w))) as [response | e'] eqn:Hget.
    + destruct (status_code response =? 200); [destruct (body_json response)|
        destruct (status_code response =? 429)]; cbn [fst]; intros [= <-]; eauto.
    + destruct e'; try (cbn [fst]; intros [= <-]; right; right; eauto).
      destruct (attempt =? retries); [cbn [fst]; intros [= <-]; eauto|].
      apply IH.
Qed.

Lemma get_weather_data_raises w e :
  fst (get_weather_data E api_key lat lon exclude w) = Raise e ->
  (api_key = "" /\ e = ValueError "API key is required.")
  \/ (api_key <> ""
      /\ (e = JSONDecodeError
          \/ (exists msg, e = RuntimeError msg)
          \/ (exists n, env_get E n = Raise e /\ is_request_error e = false))).
Proof.
  destruct (decide (api_key = "")) as [Hkey | Hkey].
  - rewrite get_weather_data_no_key by assumption. intros [= <-]. auto.
  - rewrite get_weather_data_loop by assumption. intros He. right. split; [exact Hkey|].
    apply (retry_loop_raises 5 [1; 2; 3; 4; 5] 1 w).
    revert He. destruct (retry_loop 5 [1; 2; 3; 4; 5] 1 w) as [[] ?]; cbn; congruence.
Qed.

(** X3: no request error leaves [get_weather_data]: each one is either
    retried or, on the last attempt, replaced by a RuntimeError. *)
Theorem get_weather_data_never_raises_request_error (w : world) (msg : string) :
  fst (get_weather_data E api_key lat lon exclude w) <> Raise (RequestError msg).
Proof.
  intros He. apply get_weather_data_raises in He.
  destruct He as [[_ He] | (_ & [He | [[m He] | (n & _ & He)]])]; discriminate.
Qed.

(** X4: a response with status 200 whose body does not parse ends the call
    with the decode error of [response.json()], on that attempt: it is
    neither retried nor turned into a RuntimeError. *)
Theorem undecodable_body_is_not_retried (k : nat) (w : world)
    (response : response) :
  api_key <> "" ->
  (k < 5)%nat ->
  (forall i, (i < k)%nat ->
             exists msg, env_get E (i + count is_get (w_trace w))
                         = Raise (RequestError msg)) ->
  env_get E (k + count is_get (w_trace w)) = Return response ->
  status_code response = 200 ->
  body_json response = None ->
  get_weather_data E api_key lat lon exclude w
  = (Raise JSONDecodeError, emit (EvGet api_url params) (after_failures k 1 w)).
Proof.
  intros Hkey Hk Hfail Hget Hstatus Hbody.
  rewrite (get_weather_data_response E api_key lat lon exclude k w response)
    by assumption.
  unfold answer. by rewrite Hstatus, Hbody.
Qed.

(** X5: an exception of [client.get] that is no request error leaves the
    call as it is, on the attempt that met it: the [except] clause does not
    catch it, so there is no sleep, no retry and no wrapping. *)
Theorem other_exception_propagates (k : nat) (w : world) (e : exn) :
  api_key <> "" ->
  (k < 5)%nat ->
  (forall i, (i < k)%nat ->
             exists msg, env_get E (i + count is_get (w_trace w))
                         = Raise (RequestError msg)) ->
  env_get E (k + count is_get (w_trace w)) = Raise e ->
  (forall msg, e <> RequestError msg) ->
  get_weather_data E api_key lat lon exclude w
  = (Raise e, emit (EvGet api_url params) (after_failures k 1 w)).
Proof.
  intros Hkey Hk Hfail Hget He.
  apply get_weather_data_other_error; auto.
  destruct e; try reflexivity. by destruct (He msg).
Qed.

End RetryLoopShape.

Lemma get_weather_data_trace_shape_witness :
  exists n,
    (n <= 4)%nat
    /\ snd (get_weather_data flaky "key" 40.5 (-74.25) default_exclude fresh)
       = emit (EvGet api_url (weather_params "key" 40.5 (-74.25) default_exclude))
           (after_failures flaky "key" 40.5 (-74.25) default_exclude n 1 fresh)
    /\ (forall i, (i < n)%nat ->
                  exists msg, env_get flaky (i + count is_get (w_trace fresh))
                              = Raise (RequestError msg))
    /\ count is_get (w_trace (snd (get_weather_data flaky "key" 40.5 (-74.25)
                                     default_exclude fresh)))
       = (S n + count is_get (w_trace fresh))%nat
    /\ length (sleeps (w_trace (snd (get_weather_data flaky "key" 40.5 (-74.25)
                                       default_exclude fresh))))
       = (n + length (sleeps (w_trace fresh)))%nat
    /\ length (draws (w_trace (snd (get_weather_data flaky "key" 40.5 (-74.25)
                                      default_exclude fresh))))
       = (n + length (draws (w_trace fresh)))%nat.
Proof.
  apply (get_weather_data_trace_shape flaky "key" 40.5 (-74.25) default_exclude
           fresh).
  discriminate.
Defined.

Lemma undecodable_body_is_not_retried_witness :
  get_weather_data garbled "key" 40.5 (-74.25) default_exclude fresh
  = (Raise JSONDecodeError,
     emit (EvGet api_url (weather_params "key" 40.5 (-74.25) default_exclude))
       (after_failures garbled "key" 40.5 (-74.25) default_exclude 1 1 fresh)).
Proof.
  apply (undecodable_body_is_not_retried garbled "key" 40.5 (-74.25)
           default_exclude 1 fresh {| status_code := 200; body_json := None |}).
  - discriminate.
  - lia.
  - intros i Hi. exists "timed out". destruct i as [|i]; [reflexivity | lia].
  - reflexivity.
  - reflexivity.
  - reflexivity.
Defined.

Lemma other_exception_propagates_witness :
  get_weather_data broken "key" 40.5 (-74.25) default_exclude fresh
  = (Raise (OtherError "InvalidURL"),
     emit (EvGet api_url (weather_params "key" 40.5 (-74.25) default_exclude))
       (after_failures broken "key" 40.5 (-74.25) default_exclude 1 1 fresh)).
Proof.
  apply (other_exception_propagates broken "key" 40.5 (-74.25)
           default_exclude 1 fresh (OtherError "InvalidURL")).
  - discriminate.
  - lia.
  - intros i Hi. exists "timed out". destruct i as [|i]; [reflexivity | lia].
  - reflexivity.
  - discriminate.
Defined.

(** ** More on [setup_database] *)

Lemma head_of_path_without_slash p :
  contains_slash p = false -> head_of_path p = "".
Proof.
  induction p as [|c p IH]; [reflexivity|].
  cbn [contains_slash head_of_path]. intros [Hc Hp]%orb_false_elim.
  rewrite (IH Hp), Hc. reflexivity.
Qed.

Lemma dirname_without_slash p :
  contains_slash p = false -> dirname p = "".
Proof.
  intros Hp. unfold dirname. by rewrite (head_of_path_without_slash p Hp).
Qed.

Section StorageMore.
Context (E : env) (s : Settings).

(** X6: [setup_database] never loses a logged row: in every case, also when
    it raises, the rows of [owie_logs] in the file are the ones that were
    there (none, when the file or the table was missing). *)
Theorem setup_database_keeps_rows (w : world) :
  owie_rows (snd (setup_database E s w)) = owie_rows w.
Proof.
  pose proof (setup_database_cases E s w) as H. cbv zeta in H.
  unfold owie_rows.
  destruct (w_file w) as [[|db]|].
  - by destruct H as (_ & _ & _ & ->).
  - destruct H as (_ & _ & _ & ->). rewrite set_up_tables_lookup.
    by destruct (db !! "owie_logs").
  - destruct (dirname (db_path s)); [by destruct H as (_ & _ & _ & ->)|].
    destruct (w_dir w); [|destruct (env_mkdir_error E)];
      try destruct (env_create_error E);
      destruct H as (_ & _ & _ & ->); try reflexivity;
      by rewrite set_up_tables_lookup.
Qed.

(** X7: on a first run (no file at [db_path], a path with a directory part,
    and nothing that keeps the directory and the file from being created),
    [setup_database] succeeds and leaves a database of two tables: an empty
    [owie_logs] with the eleven columns of the CREATE TABLE statement, and
    the empty [sqlite_sequence] that SQLite creates with it. *)
Theorem setup_database_first_run (w : world) :
  w_file w = None ->
  dirname (db_path s) <> "" ->
  w_dir w = true \/ env_mkdir_error E = None ->
  env_create_error E = None ->
  fst (setup_database E s w) = Return tt
  /\ w_file (snd (setup_database E s w))
     = Some (Database (<["sqlite_sequence" := empty_sequence]>
                         (<["owie_logs" := empty_owie_logs]> ∅)))
  /\ w_dir (snd (setup_database E s w)) = true
  /\ w_txn (snd (setup_database E s w)) = None
  /\ length (tbl_columns empty_owie_logs) = 11%nat.
Proof.
  intros Hf Hdir Hmk Hcr.
  pose proof (setup_database_cases E s w) as H. cbv zeta in H.
  rewrite Hf, Hcr in H.
  assert (Hnew : set_up_tables ∅
                 = <["sqlite_sequence" := empty_sequence]>
                     (<["owie_logs" := empty_owie_logs]> ∅))
    by reflexivity.
  destruct (dirname (db_path s)); [congruence|].
  destruct (w_dir w); [|destruct Hmk as [Hmk | Hmk]; [discriminate | rewrite Hmk in H]];
    destruct H as (Hr & Hd & Ht & Hfile); rewrite Hnew in Hfile; auto.
Qed.


(** X9: when [db_path] has no directory part and the file does not exist
    yet, [setup_database] always fails: [os.makedirs] is called with the
    empty [dirname] and its error comes out as the RuntimeError; the file is
    not created. *)
Theorem setup_database_without_directory_part (w : world) :
  contains_slash (db_path s) = false ->
  w_file w = None ->
  fst (setup_database E s w)
  = Raise (RuntimeError "Error creating database file or directory: [Errno 2] No such file or directory: ''")
  /\ w_file (snd (setup_database E s w)) = None
  /\ w_trace (snd (setup_database E s w))
     = EvMakedirs "" :: EvExists (db_path s) :: w_trace w.
Proof.
  intros Hslash Hf. apply dirname_without_slash in Hslash.
  destruct w as [tr d f t]. cbn in Hf. subst f.
  unfold setup_database, with_connect, try_except, bind, os_path_exists,
    os_makedirs, open_w_close, raise, ret.
  cbn -[dirname]. rewrite Hslash. cbn.
  repeat split; auto.
Qed.

End StorageMore.

(** ** More on [insert_owie_log] *)

Section InsertMore.
Context (E : env) (s : Settings).

Lemma py_getitem_raises obj key e :
  py_getitem obj key = Raise e -> is_insert_error e = true.
Proof.
  destruct obj; cbn; try (by intros [= <-]).
  destruct (assoc key d); [discriminate | by intros [= <-]].
Qed.

Lemma adapt_all_raises vs e :
  adapt_all vs = Raise e -> is_insert_error e = true.
Proof.
  induction vs as [|v vs IH]; [discriminate|]. cbn [adapt_all].
  destruct (adapt v) as [c|e'] eqn:Hv.
  - destruct (adapt_all vs); [discriminate|]. intros [= <-]. by apply IH.
  - intros [= <-]. destruct v; cbn in Hv; try discriminate;
      try (by injection Hv as <-).
    destruct (_ && _); [discriminate | by injection Hv as <-].
Qed.

Lemma run_statement_raises sql db e :
  run_statement sql db = Raise e -> is_insert_error e = true.
Proof.
  destruct sql as [name columns | name names params]; cbn.
  - destruct (db !! name); discriminate.
  - destruct (db !! name) as [t|]; [|by intros [= <-]].
    destruct (negb _); [by intros [= <-]|].
    destruct (adapt_all params) as [cells|e'] eqn:Hcells.
    + unfold insert_into.
      destruct (generates_id t names && _); [by intros [= <-]|].
      destruct (null_violation t _); [by intros [= <-]|].
      destruct (generates_id t names); discriminate.
    + intros [= <-]. by apply adapt_all_raises in Hcells.
Qed.

Lemma run_insert_changes name names params db :
  run_statement (InsertInto name names params) db <> Return None.
Proof.
  cbn. destruct (db !! name); [|discriminate].
  destruct (negb _); [discriminate|].
  destruct (adapt_all params); [|discriminate].
  by destruct (insert_into _ _ _ _ _) as [[? []]|].
Qed.

(** What a call of [insert_owie_log] leaves, whatever it is given. *)
Lemma insert_owie_log_outcome date_time body_part weather_data w :
  let r := fst (insert_owie_log E s date_time body_part weather_data w) in
  let w' := snd (insert_owie_log E s date_time body_part weather_data w) in
  w_dir w' = w_dir w
  /\ w_txn w' = None
  /\ match r with
     | Return _ => env_commit_error E = None
     | Raise e =>
         (is_insert_error e = true
          \/ exists msg,
               env_commit_error E = Some msg
               /\ e = RuntimeError ("Error while inserting data into the database: "
                                    +:+ msg))
         /\ (forall f, w_file w = Some f -> w_file w' = Some f)
     end.
Proof.
  cbv zeta. destruct w as [tr d f tx].
  unfold insert_owie_log, with_connect, execute_insert, try_except, bind, lift,
    connect, cursor_execute, connection_commit, connection_rollback, raise, ret.
  cbn -[run_statement].
  repeat match goal with
         | |- context [py_getitem ?a ?k] =>
             let H := fresh "Hitem" in
             destruct (py_getitem a k) eqn:H;
             [| apply py_getitem_raises in H ]
         end.
  all: destruct f as [[|db]|]; cbn -[run_statement];
    try destruct d; cbn -[run_statement];
    try destruct (env_create_error E); cbn -[run_statement].
  all: repeat match goal with
              | |- context [run_statement ?q ?b] =>
                  let H := fresh "Hrun" in
                  destruct (run_statement q b) as [[?|]|?] eqn:H;
                  [ | by apply run_insert_changes in H
                    | apply run_statement_raises in H ];
                  cbn -[run_statement]
              end.
  all: try destruct (env_commit_error E) eqn:Hcommit; cbn.
  all: repeat split; auto; try (intros ? [= <-]; reflexivity);
    try discriminate; eauto.
Qed.

End InsertMore.

(** X10: a call of [insert_owie_log] that raises leaves the file at
    [db_path] as it was and no transaction open, whatever it was given: a
    row is stored only by a commit that went through. *)
Theorem insert_owie_log_is_atomic (E : env) (s : Settings)
    (date_time : value) (body_part : string) (weather_data : value)
    (w : world) (f : file) (e : exn) :
  w_file w = Some f ->
  fst (insert_owie_log E s date_time body_part weather_data w) = Raise e ->
  w_file (snd (insert_owie_log E s date_time body_part weather_data w)) = Some f
  /\ w_txn (snd (insert_owie_log E s date_time body_part weather_data w)) = None
  /\ owie_rows (snd (insert_owie_log E s date_time body_part weather_data w))
     = owie_rows w.
Proof.
  intros Hf He.
  pose proof (insert_owie_log_outcome E s date_time body_part weather_data w)
    as (_ & Ht & H).
  rewrite He in H. destruct H as [_ Hfile].
  split; [auto | split; [exact Ht|]].
  unfold owie_rows. by rewrite (Hfile f Hf), Hf.
Qed.


Lemma insert_owie_log_is_atomic_witness :
  w_file (snd (insert_owie_log full_disk home_settings (VInt 1700000000) "knee"
                 (log_weather_data_of sunny_reading) set_up))
  = w_file set_up
  /\ w_txn (snd (insert_owie_log full_disk home_settings (VInt 1700000000) "knee"
                   (log_weather_data_of sunny_reading) set_up)) = None
  /\ owie_rows (snd (insert_owie_log full_disk home_settings (VInt 1700000000)
                       "knee" (log_weather_data_of sunny_reading) set_up))
     = owie_rows set_up.
Proof.
  apply (insert_owie_log_is_atomic full_disk home_settings (VInt 1700000000)
           "knee" (log_weather_data_of sunny_reading) set_up
           (Database (create_table "owie_logs" owie_logs_columns ∅))
           (RuntimeError "Error while inserting data into the database: database or disk is full")).
  - reflexivity.
  - vm_compute. reflexivity.
Defined.


Lemma setup_database_first_run_witness :
  fst (setup_database calm home_settings fresh) = Return tt
  /\ w_file (snd (setup_database calm home_settings fresh))
     = Some (Database (<["sqlite_sequence" := empty_sequence]>
                         (<["owie_logs" := empty_owie_logs]> ∅)))
  /\ w_dir (snd (setup_database calm home_settings fresh)) = true
  /\ w_txn (snd (setup_database calm home_settings fresh)) = None
  /\ length (tbl_columns empty_owie_logs) = 11%nat.
Proof.
  apply (setup_database_first_run calm home_settings fresh).
  - reflexivity.
  - discriminate.
  - right. reflexivity.
  - reflexivity.
Defined.


Lemma setup_database_without_directory_part_witness :
  fst (setup_database calm bare_settings fresh)
  = Raise (RuntimeError "Error creating database file or directory: [Errno 2] No such file or directory: ''")
  /\ w_file (snd (setup_database calm bare_settings fresh)) = None
  /\ w_trace (snd (setup_database calm bare_settings fresh))
     = EvMakedirs "" :: EvExists (db_path bare_settings) :: w_trace fresh.
Proof.
  apply (setup_database_without_directory_part calm bare_settings fresh);
    reflexivity.
Defined.

(** ** More on [log_owie] *)

Section HandlerMore.
Context (E : env) (s : Settings).

Lemma py_get_raises obj key dflt e :
  py_get obj key dflt = Raise e -> is_lookup_error e = true.
Proof. destruct obj; cbn; try discriminate; by intros [= <-]. Qed.

Lemma py_first_raises obj e :
  py_first obj = Raise e -> is_lookup_error e = true.
Proof.
  destruct obj as [| | | |[|]|[|]|[|]|]; cbn; try discriminate; by intros [= <-].
Qed.

Lemma settings_present_guard :
  negb (truthy (VStr (ow_api_key s))) || negb (truthy (VStr (db_path s)))
  || negb (truthy (VFloat (lat s))) || negb (truthy (VFloat (lon s)))
  = negb (settings_present s).
Proof.
  unfold settings_present.
  destruct (truthy (VStr (ow_api_key s))), (truthy (VStr (db_path s))),
    (truthy (VFloat (lat s))), (truthy (VFloat (lon s))); reflexivity.
Qed.

Local Ltac stage_step H :=
  cbv beta iota in H;
  match type of H with
  | (let (_, _) := (if truthy ?x then _ else _) _ in _) = _ =>
      destruct (truthy x) eqn:?
  | (let (_, _) := match ?m with _ => _ end in _) = _ =>
      let Hstep := fresh "Hstep" in destruct m eqn:Hstep
  | (let (_, _) := ?m in _) = _ =>
      let Hstep := fresh "Hstep" in destruct m eqn:Hstep
  | match ?m with _ => _ end = _ =>
      let Hstep := fresh "Hstep" in destruct m eqn:Hstep
  end.

Local Ltac lookups H :=
  repeat (stage_step H;
          [| left; eexists; injection H as <- <-;
             split; [reflexivity|]; split; [reflexivity|]; left;
             first [ eapply py_get_raises; eassumption
                   | eapply py_first_raises; eassumption ] ]).

(** The stages of a call of [log_owie]: the guard, the fetch, the lookups
    and the check, the set-up, the insert; it ends at the first that does
    not go through. *)
Lemma log_owie_stages body_part w r w' :
  log_owie E s body_part w = (r, w') ->
  (settings_present s = false /\ r = Return missing_settings_reply /\ w' = w)
  \/ (settings_present s = true
      /\ exists r1 w1,
           get_weather_data E (ow_api_key s) (lat s) (lon s) default_exclude w
           = (r1, w1)
           /\ match r1 with
              | Raise e => r = Raise e /\ w' = w1
              | Return payload =>
                  (exists e,
                      r = Raise e /\ w' = w1
                      /\ (is_lookup_error e = true
                          \/ e = RuntimeError "Incomplete weather data received from the API."))
                  \/ (exists rd,
                         read_weather payload = Some rd
                         /\ complete rd = true
                         /\ match setup_database E s w1 with
                            | (Raise e, w2) => r = Raise e /\ w' = w2
                            | (Return _, w2) =>
                                match insert_owie_log E s (rd_date_time rd) body_part
                                        (log_weather_data_of rd) w2 with
                                | (Raise e, w3) => r = Raise e /\ w' = w3
                                | (Return _, w3) =>
                                    r = Return (success_reply body_part
                                                  (rd_temperature rd)
                                                  (rd_pressure rd))
                                    /\ w' = w3
                                end
                            end)
              end).
Proof.
  intros Hrun. unfold log_owie in Hrun. rewrite settings_present_guard in Hrun.
  destruct (settings_present s); cbn [negb] in Hrun.
  2: { left. by injection Hrun as <- <-. }
  right. split; [reflexivity|].
  unfold bind, lift, ret, raise in Hrun.
  stage_step Hrun. stage_step Hrun.
  2: { do 2 eexists. split; [reflexivity|]. by injection Hrun as <- <-. }
  do 2 eexists. split; [reflexivity|]. cbv beta iota.
  lookups Hrun.
  cbv beta iota in Hrun.
  match type of Hrun with
  | (let (_, _) := (if truthy ?x then _ else _) _ in _) = _ =>
      destruct (truthy x) eqn:Hrain; cbv beta iota in Hrun
  end.
  all: lookups Hrun.
  all: cbv beta iota in Hrun.
  all: match type of Hrun with
       | (if ?b then _ else _) _ = _ => destruct b eqn:Hcomplete
       end.
  all: try (left; eexists; injection Hrun as <- <-;
            split; [reflexivity|]; split; [reflexivity|]; right; reflexivity).
  all: right;
    match type of Hrun with
    | context [("precipitation", ?prec)] =>
        eexists {| rd_precipitation := prec |}
    end.
  all: (split;
        [ eapply read_weather_of_gets; try eassumption;
          first [ by rewrite Hrain
                | rewrite Hrain;
                  symmetry; eapply member_1h_of_get; eassumption ]
        | split;
          [ unfold complete;
            cbn [rd_temperature rd_pressure rd_date_time rd_humidity
                   rd_uv_index rd_weather_id rd_weather_main
                   rd_weather_description];
            by rewrite Hcomplete
          | ]]).
  all: cbn [rd_date_time rd_temperature rd_pressure log_weather_data_of
              rd_humidity rd_precipitation rd_uv_index rd_weather_id
              rd_weather_main rd_weather_description].
  all: destruct (setup_database E s _) as [[[]|?] ?];
    [| by injection Hrun as <- <-].
  all: destruct (insert_owie_log E s _ _ _ _) as [[[]|?] ?];
    injection Hrun as <- <-; split; reflexivity.
Qed.

End HandlerMore.

Section HandlerFrame.
Context (E : env) (s : Settings).

Lemma setup_database_rows w :
  owie_rows (snd (setup_database E s w)) = owie_rows w.
Proof.
  pose proof (setup_database_cases E s w) as H. cbv zeta in H.
  unfold owie_rows.
  destruct (w_file w) as [[|db]|].
  - by destruct H as (_ & _ & _ & ->).
  - destruct H as (_ & _ & _ & ->). rewrite set_up_tables_lookup.
    by destruct (db !! "owie_logs").
  - destruct (dirname (db_path s)); [by destruct H as (_ & _ & _ & ->)|].
    destruct (w_dir w); [|destruct (env_mkdir_error E)];
      try destruct (env_create_error E);
      destruct H as (_ & _ & _ & ->); try reflexivity;
      by rewrite set_up_tables_lookup.
Qed.

Lemma get_weather_data_rows api_key lat lon exclude w :
  owie_rows (snd (get_weather_data E api_key lat lon exclude w)) = owie_rows w.
Proof.
  pose proof (get_weather_data_requests_only E api_key lat lon exclude w)
    as (_ & _ & _ & _ & _ & _ & Hfile & _).
  unfold owie_rows. by rewrite Hfile.
Qed.

(** X12: when the fetch raises, [log_owie] raises the same exception in the
    world the fetch left: nothing is looked up, set up or inserted, so a
    rate limit or an unreachable API writes nothing. *)
Theorem log_owie_fetch_failure (body_part : string) (w : world) (e : exn) :
  settings_present s = true ->
  fst (get_weather_data E (ow_api_key s) (lat s) (lon s) default_exclude w)
  = Raise e ->
  log_owie E s body_part w
  = (Raise e,
     snd (get_weather_data E (ow_api_key s) (lat s) (lon s) default_exclude w))
  /\ requests_only 5 w (snd (log_owie E s body_part w)).
Proof.
  intros Hs He.
  destruct (log_owie E s body_part w) as [r w'] eqn:Hrun.
  apply log_owie_stages in Hrun as [(Hs' & _) | (_ & r1 & w1 & Hget & H)];
    [congruence|].
  rewrite Hget in He |- *. cbn [fst snd] in *. subst r1.
  destruct H as [-> ->]. split; [reflexivity|].
  pose proof (get_weather_data_requests_only
                E (ow_api_key s) (lat s) (lon s) default_exclude w) as Hreq.
  by rewrite Hget in Hreq.
Qed.


(** X14: [log_owie] adds a row only when it answers with the success reply:
    after any other outcome (the missing-settings reply or an exception,
    from whichever stage) the rows of [owie_logs] in the file are the ones
    that were there. *)
Theorem log_owie_failure_keeps_rows (body_part : string) (w : world) :
  (forall t p, fst (log_owie E s body_part w)
               <> Return (success_reply body_part t p)) ->
  owie_rows (snd (log_owie E s body_part w)) = owie_rows w.
Proof.
  intros Hfail.
  destruct (log_owie E s body_part w) as [r w'] eqn:Hrun. cbn [fst snd] in *.
  apply log_owie_stages in Hrun as [(_ & _ & ->) | (Hs & r1 & w1 & Hget & H)];
    [reflexivity|].
  pose proof (get_weather_data_rows (ow_api_key s) (lat s) (lon s)
                default_exclude w) as Hrows1.
  rewrite Hget in Hrows1. cbn [snd] in Hrows1.
  destruct r1 as [payload | e1]; [|by destruct H as [_ ->]].
  destruct H as [(e' & _ & -> & _) | (rd & _ & _ & H)]; [exact Hrows1|].
  pose proof (setup_database_rows w1) as Hrows2.
  pose proof (setup_database_table E s w1) as Hok.
  destruct (setup_database E s w1) as [[[]|e2] w2]; cbn [snd] in Hrows2.
  - destruct (Hok w2 eq_refl) as (db & t & Hf2 & _).
    pose proof (insert_owie_log_outcome E s (rd_date_time rd) body_part
                  (log_weather_data_of rd) w2) as (_ & _ & Hins).
    destruct (insert_owie_log E s _ _ _ w2) as [[[]|e3] w3];
      destruct H as [-> ->]; cbn [fst snd] in Hins.
    + by destruct (Hfail (rd_temperature rd) (rd_pressure rd)).
    + destruct Hins as [_ Hfile]. unfold owie_rows.
      rewrite (Hfile _ Hf2). unfold owie_rows in Hrows2, Hrows1.
      rewrite Hf2 in Hrows2. by rewrite Hrows2.
  - destruct H as [_ ->]. by rewrite Hrows2.
Qed.

End HandlerFrame.

Section HandlerChecks.
Context (E : env) (s : Settings).

Lemma validate_settings_returns w :
  fst (validate_settings s w) = Return tt -> startup_ok s = true.
Proof.
  unfold validate_settings, startup_ok, bind, print, perform.
  destruct (truthy (VStr (ow_api_key s))), (truthy (VFloat (lat s))),
    (truthy (VFloat (lon s))); cbn; congruence.
Qed.

(** X15: the start-up check does not look at [db_path], the guard of
    [log_owie] does: with settings that [validate_settings] accepted, a
    request is answered with the missing-settings reply exactly when
    [db_path] is empty, and then without any effect. *)
Theorem validated_settings_lack_only_db_path (body_part : string)
    (w0 w : world) :
  fst (validate_settings s w0) = Return tt ->
  (fst (log_owie E s body_part w) = Return missing_settings_reply
   <-> db_path s = "")
  /\ (db_path s = "" -> snd (log_owie E s body_part w) = w).
Proof.
  intros Hok%validate_settings_returns. unfold startup_ok in Hok.
  apply andb_prop in Hok as [[Hkey Hlat]%andb_prop Hlon].
  assert (Hpresent : settings_present s = truthy (VStr (db_path s))).
  { unfold settings_present. rewrite Hkey, Hlat, Hlon.
    by destruct (truthy (VStr (db_path s))). }
  destruct (log_owie E s body_part w) as [r w'] eqn:Hrun. cbn [fst snd].
  apply log_owie_stages in Hrun as [(Hs & -> & ->) | (Hs & r1 & w1 & Hget & H)].
  - rewrite Hpresent in Hs. cbn in Hs.
    destruct (db_path s); [tauto | discriminate].
  - rewrite Hpresent in Hs. cbn in Hs.
    destruct (db_path s); [discriminate|].
    split; [split; [|discriminate] | discriminate].
    intros ->. destruct r1 as [payload | e1]; [|by destruct H].
    destruct H as [(e' & ? & _) | (rd & _ & _ & H)]; [discriminate|].
    destruct (setup_database E s w1) as [[[]|?] ?]; [|by destruct H].
    destruct (insert_owie_log E s _ _ _ _) as [[[]|?] ?]; by destruct H.
Qed.

Lemma api_shaped_inv payload :
  api_shaped payload = true ->
  exists current rain snow weather_0 rest,
    py_get payload "current" (VDict []) = Return (VDict current)
    /\ py_get (VDict current) "rain" (VDict []) = Return (VDict rain)
    /\ py_get (VDict current) "snow" (VDict []) = Return (VDict snow)
    /\ py_get (VDict current) "weather" (VList [VDict []])
       = Return (VList (VDict weather_0 :: rest)).
Proof.
  unfold api_shaped. destruct payload as [| | | | | | |d]; try discriminate.
  cbn [py_get].
  destruct (assoc "current" d) as [[| | | | | | |current]|];
    cbn [default from_option id]; try discriminate.
  - intros [[Hrain Hsnow]%andb_prop Hweather]%andb_prop.
    exists current.
    destruct (assoc "rain" current) as [[| | | | | | |rain]|];
      try discriminate Hrain;
      destruct (assoc "snow" current) as [[| | | | | | |snow]|];
      try discriminate Hsnow;
      destruct (assoc "weather" current)
        as [[| | | | |[|[| | | | | | |weather_0] rest]| |]|];
      try discriminate Hweather; cbn [default from_option id];
      do 4 eexists; repeat split; reflexivity.
  - intros _. exists []. cbn. do 4 eexists. repeat split; reflexivity.
Qed.

(** X16: with a payload of the expected JSON types that lacks a required
    value (absent or null), [log_owie] raises the RuntimeError "Incomplete
    weather data received from the API." in the world the fetch left, so
    before [setup_database] and [insert_owie_log]. *)
Theorem log_owie_incomplete_payload_runtime_error (body_part : string)
    (w w1 : world) (payload : value) :
  settings_present s = true ->
  get_weather_data E (ow_api_key s) (lat s) (lon s) default_exclude w
  = (Return payload, w1) ->
  api_shaped payload = true ->
  (forall rd, read_weather payload = Some rd -> complete rd = false) ->
  log_owie E s body_part w
  = (Raise (RuntimeError "Incomplete weather data received from the API."), w1).
Proof.
  intros Hs Hget Hshape Hmissing.
  destruct (api_shaped_inv payload Hshape)
    as (current & rain & snow & weather_0 & rest & Hcur & Hrain & Hsnow & Hweather).
  unfold log_owie. rewrite settings_present_guard, Hs. cbn [negb].
  unfold bind, lift, ret, raise. rewrite Hget. cbv beta iota.
  rewrite Hcur. cbv beta iota. rewrite Hrain, Hsnow, Hweather.
  cbn [py_get py_first].
  destruct (truthy _) eqn:Htruthy; cbv beta iota.
  all: match goal with
       | |- (if ?b then _ else _) _ = _ =>
           destruct b eqn:Hcomplete; [reflexivity | exfalso]
       end.
  all: assert (Hread : exists rd, read_weather payload = Some rd
                                  /\ complete rd = true);
    [ eexists; split;
      [ eapply read_weather_of_gets; try eassumption; try reflexivity;
        first [ by rewrite Htruthy
              | rewrite Htruthy; symmetry;
                eapply member_1h_of_get; [eassumption | reflexivity] ]
      | unfold complete; cbn [rd_temperature rd_pressure rd_date_time
                                rd_humidity rd_uv_index rd_weather_id
                                rd_weather_main rd_weather_description];
        by rewrite Hcomplete ]
    | destruct Hread as (rd & Hread & Hc);
      rewrite (Hmissing _ Hread) in Hc; discriminate Hc ].
Qed.

End HandlerChecks.

(** ** The ids of the rows *)

Lemma cell_combine_absent name names : forall cells,
  ~ In name names -> cell name (combine names cells) = None.
Proof.
  induction names as [|k names IH]; intros cells Hname; [reflexivity|].
  destruct cells as [|c cells]; [reflexivity|]. cbn [combine cell].
  destruct (String.eqb k name) eqn:Hk.
  - apply String.eqb_eq in Hk. destruct Hname. by left.
  - apply IH. intros Hin. apply Hname. by right.
Qed.

Lemma well_kept_empty seq : well_kept seq empty_owie_logs.
Proof. repeat split; constructor. Qed.

(** On a table with the columns of the program, an insert that goes through
    generates an id for the new row, above the sequence of the table. *)
Lemma insert_into_next_id t seq cells t' o :
  tbl_columns t = owie_logs_columns ->
  insert_into "owie_logs" t seq insert_columns cells = Return (t', o) ->
  tbl_columns t' = owie_logs_columns
  /\ o = Some (next_id t seq)
  /\ seq < next_id t seq
  /\ exists r, tbl_rows t' = tbl_rows t ++ [r]
               /\ row_id r = Some (next_id t seq).
Proof.
  intros Hcols Hins.
  apply insert_into_rows in Hins as (Hcols' & Hrows & -> & _).
  assert (Hid : cell "id" (combine insert_columns cells) = None).
  { apply cell_combine_absent. cbn. intros H.
    repeat (destruct H as [H | H]; [discriminate|]). exact H. }
  remember (combine insert_columns cells) as assigned eqn:Hassigned.
  clear Hassigned.
  split; [congruence|]. split; [|split].
  - unfold generates_id. by rewrite Hcols.
  - unfold next_id. lia.
  - exists (new_row t (next_id t seq) assigned). split; [exact Hrows|].
    unfold row_id, new_row. rewrite Hcols.
    cbn. by rewrite Hid.
Qed.

Lemma insert_into_well_kept t seq cells t' o :
  well_kept seq t ->
  insert_into "owie_logs" t seq insert_columns cells = Return (t', o) ->
  well_kept (next_id t seq) t'.
Proof.
  intros (Hcols & Hids & Hnodup) Hins.
  destruct (insert_into_next_id t seq cells t' o Hcols Hins)
    as (Hcols' & _ & Hseq & r & Hrows & Hr).
  split; [exact Hcols' | split].
  - rewrite Hrows. apply Forall_app. split.
    + eapply Forall_impl; [exact Hids|].
      intros r0 (n & Hn & Hle). exists n. split; [exact Hn | lia].
    + constructor; [|constructor]. exists (next_id t seq). split; [exact Hr | lia].
  - rewrite Hrows, map_app. cbn [map]. apply NoDup_app. split; [exact Hnodup|].
    split; [|apply NoDup_singleton].
    intros k Hk Hin. apply list_elem_of_singleton in Hin. subst k. rewrite Hr in Hk.
    apply list_elem_of_fmap in Hk as (r0 & Hr0 & Hin).
    rewrite Forall_forall in Hids. destruct (Hids r0 Hin) as (n & Hn & Hle).
    rewrite Hn in Hr0. injection Hr0 as Hr0. lia.
Qed.

Section Ids.
Context (E : env) (s : Settings).

Lemma insert_owie_log_table w w' db t body_part rd :
  w_file w = Some (Database db) ->
  db !! "owie_logs" = Some t ->
  insert_owie_log E s (rd_date_time rd) body_part (log_weather_data_of rd) w
  = (Return tt, w') ->
  exists cells t' o db',
    adapt_all [ rd_date_time rd; VStr body_part; rd_temperature rd;
                rd_pressure rd; rd_humidity rd; rd_precipitation rd;
                rd_uv_index rd; rd_weather_id rd; rd_weather_main rd;
                rd_weather_description rd ] = Return cells
    /\ insert_into "owie_logs" t (sequence_of db "owie_logs") insert_columns
         cells = Return (t', o)
    /\ w_file w' = Some (Database db')
    /\ db' !! "owie_logs" = Some t'
    /\ sequence_of db' "owie_logs" = default (sequence_of db "owie_logs") o.
Proof.
  intros Hf Hl Hrun.
  destruct (insert_owie_log_runs E s _ _ _ _ _ _ Hf Hrun) as (db' & Hstmt & Hf').
  apply run_insert_tables in Hstmt
    as (t0 & cells & t' & o & Hl0 & _ & Hcells & Hins & Hl' & _ & Hseq);
    [|discriminate].
  rewrite Hl in Hl0. injection Hl0 as <-.
  exists cells, t', o, db'. auto.
Qed.

(** A null precipitation does not get into a table with the columns of the
    program: the column is NOT NULL. *)
Lemma insert_into_null_precipitation t seq cells p date_time body_part
    temperature pressure humidity uv_index weather_id weather_main
    weather_description :
  tbl_columns t = owie_logs_columns ->
  adapt_all [ date_time; body_part; temperature; pressure; humidity; VNone;
              uv_index; weather_id; weather_main; weather_description ]
  = Return cells ->
  insert_into "owie_logs" t seq insert_columns cells <> Return p.
Proof.
  intros Hcols Hcells.
  repeat (apply adapt_all_cons in Hcells as (? & ? & -> & ? & Hcells)).
  cbn in Hcells. injection Hcells as <-.
  match goal with H : adapt VNone = Return ?c |- _ => injection H as <- end.
  destruct p as [t' o]. intros Hins.
  apply insert_into_rows in Hins as (_ & _ & _ & Hnull).
  unfold null_violation in Hnull.
  pose proof (find_none _ _ Hnull
                {| col_name := "precipitation"; col_type := REAL;
                   col_notnull := true; col_autoincrement := false |}) as Hp.
  cbn [col_notnull col_name andb] in Hp.
  rewrite (cell_new_row t _ _ "precipitation" SqlNull) in Hp;
    [| unfold has_column; by rewrite Hcols | reflexivity].
  rewrite Hcols in Hp. cbn in Hp.
  assert (true = false) by (apply Hp; tauto). discriminate.
Qed.

Lemma kept_same_file w w' :
  w_file w' = w_file w -> kept w -> kept w'.
Proof. unfold kept. intros ->. auto. Qed.

Lemma setup_database_kept w :
  kept w -> kept (snd (setup_database E s w)).
Proof.
  intros Hkept db' t' Hf' Hl'.
  pose proof (setup_database_cases E s w) as H. cbv zeta in H.
  destruct (w_file w) as [[|db]|] eqn:Hf.
  - destruct H as (_ & _ & _ & Hfile). congruence.
  - destruct H as (_ & _ & _ & Hfile). rewrite Hfile in Hf'.
    injection Hf' as <-.
    rewrite set_up_tables_sequence_of. rewrite set_up_tables_lookup in Hl'.
    destruct (db !! "owie_logs") as [t|] eqn:Hl; injection Hl' as <-.
    + by apply (Hkept db t Hf).
    + apply well_kept_empty.
  - assert (Hnew : w_file (snd (setup_database E s w)) = None
                   \/ w_file (snd (setup_database E s w))
                      = Some (Database (set_up_tables ∅))).
    { destruct (dirname (db_path s)); [left; by destruct H as (_ & _ & _ & ?)|].
      destruct (w_dir w); [|destruct (env_mkdir_error E)];
        try destruct (env_create_error E);
        destruct H as (_ & _ & _ & Hfile); auto. }
    destruct Hnew as [Hnew | Hnew]; rewrite Hnew in Hf'; [discriminate|].
    injection Hf' as <-. rewrite set_up_tables_lookup, lookup_empty in Hl'.
    injection Hl' as <-. apply well_kept_empty.
Qed.

Lemma insert_owie_log_kept w db t body_part rd :
  w_file w = Some (Database db) ->
  db !! "owie_logs" = Some t ->
  kept w ->
  kept (snd (insert_owie_log E s (rd_date_time rd) body_part
               (log_weather_data_of rd) w)).
Proof.
  intros Hf Hl Hkept.
  pose proof (insert_owie_log_outcome E s (rd_date_time rd) body_part
                (log_weather_data_of rd) w) as (_ & _ & Hout).
  destruct (insert_owie_log E s _ _ _ w) as [[[]|e] w'] eqn:Hrun;
    cbn [fst snd] in *.
  - destruct (insert_owie_log_table _ _ _ _ _ _ Hf Hl Hrun)
      as (cells & t' & o & db0 & _ & Hins & Hfile & Hl0 & Hseq).
    intros db' t'' Hf' Hl'. rewrite Hfile in Hf'. injection Hf' as <-.
    rewrite Hl0 in Hl'. injection Hl' as <-.
    pose proof (Hkept db t Hf Hl) as Hwell.
    destruct (insert_into_next_id _ _ _ _ _ (proj1 Hwell) Hins) as (_ & -> & _).
    rewrite Hseq. cbn [default].
    by eapply insert_into_well_kept.
  - destruct Hout as [_ Hfile]. eapply kept_same_file; [|exact Hkept].
    rewrite Hf. by apply Hfile.
Qed.

Lemma get_weather_data_kept api_key lat lon exclude w :
  kept w -> kept (snd (get_weather_data E api_key lat lon exclude w)).
Proof.
  pose proof (get_weather_data_requests_only E api_key lat lon exclude w)
    as (_ & _ & _ & _ & _ & _ & Hfile & _).
  by apply kept_same_file.
Qed.

(** X17: [log_owie] keeps the ids of [owie_logs] in order: if the table of
    the file (when there is one) has the columns of the program and rows
    with different ids, none above its sequence, then so it has after a
    call, however the call ends. *)
Theorem log_owie_keeps_ids (body_part : string) (w : world) :
  kept w -> kept (snd (log_owie E s body_part w)).
Proof.
  intros Hkept.
  destruct (log_owie E s body_part w) as [r w'] eqn:Hrun. cbn [snd].
  apply log_owie_stages in Hrun as [(_ & _ & ->) | (_ & r1 & w1 & Hget & H)];
    [exact Hkept|].
  pose proof (get_weather_data_kept (ow_api_key s) (lat s) (lon s)
                default_exclude w Hkept) as Hkept1.
  rewrite Hget in Hkept1. cbn [snd] in Hkept1.
  destruct r1 as [payload | e1]; [|by destruct H as [_ ->]].
  destruct H as [(e' & _ & -> & _) | (rd & _ & _ & H)]; [exact Hkept1|].
  pose proof (setup_database_kept w1 Hkept1) as Hkept2.
  pose proof (setup_database_table E s w1) as Hok.
  destruct (setup_database E s w1) as [[[]|e2] w2]; cbn [snd] in Hkept2;
    [|by destruct H as [_ ->]].
  destruct (Hok w2 eq_refl) as (db & t & Hf2 & Hl2 & _).
  pose proof (insert_owie_log_kept w2 db t body_part rd Hf2 Hl2 Hkept2) as Hkept3.
  destruct (insert_owie_log E s _ _ _ w2) as [[[]|e3] w3]; cbn [snd] in Hkept3;
    by destruct H as [_ ->].
Qed.

(** X18: on a file whose table is well kept (or that has none), the row a
    successful call appends has an id that is larger than the id of every
    row that was there. *)
Theorem log_owie_gives_fresh_id (body_part : string) (w w' : world)
    (v : value) :
  kept w ->
  log_owie E s body_part w = (Return v, w') ->
  v <> missing_settings_reply ->
  exists r n,
    owie_rows w' = owie_rows w ++ [r]
    /\ row_id r = Some n
    /\ Forall (fun r0 => exists m, row_id r0 = Some m /\ m < n) (owie_rows w).
Proof.
  intros Hkept Hrun Hv.
  destruct (log_owie_success _ _ _ _ _ _ Hrun Hv)
    as (payload & w1 & rd & w2 & Hget & _ & Hsetup & Hinsert & _).
  pose proof (get_weather_data_kept (ow_api_key s) (lat s) (lon s)
                default_exclude w Hkept) as Hkept1.
  pose proof (get_weather_data_rows E (ow_api_key s) (lat s) (lon s)
                default_exclude w) as Hrows1.
  rewrite Hget in Hkept1, Hrows1. cbn [snd] in Hkept1, Hrows1.
  pose proof (setup_database_kept w1 Hkept1) as Hkept2.
  rewrite Hsetup in Hkept2. cbn [snd] in Hkept2.
  destruct (setup_database_table E s _ _ Hsetup) as (db & t & Hf2 & Hl2 & Hrows2 & _).
  destruct (insert_owie_log_table _ _ _ _ _ _ Hf2 Hl2 Hinsert)
    as (cells & t' & o & db' & _ & Hins & Hfile & Hl' & _).
  destruct (Hkept2 db t Hf2 Hl2) as (Hcols & Hids & _).
  destruct (insert_into_next_id _ _ _ _ _ Hcols Hins)
    as (_ & _ & Hseq & r & Hrows' & Hr).
  exists r, (next_id t (sequence_of db "owie_logs")).
  rewrite <- Hrows1, <- Hrows2.
  split; [|split; [exact Hr|]].
  - unfold owie_rows. by rewrite Hfile, Hl'.
  - eapply Forall_impl; [exact Hids|].
    intros r0 (m & Hm & Hle). exists m. split; [exact Hm | lia].
Qed.

(** X19: the precipitation is not among the values [log_owie] checks, but
    its column is NOT NULL: with a payload that reads a null precipitation
    (no rain, and a null [snow.1h]) a call on a well-kept file does not go
    through, it raises, and no row is added. *)
Theorem log_owie_null_precipitation (body_part : string) (w w1 : world)
    (payload : value) (rd : reading) :
  settings_present s = true ->
  kept w ->
  get_weather_data E (ow_api_key s) (lat s) (lon s) default_exclude w
  = (Return payload, w1) ->
  read_weather payload = Some rd ->
  rd_precipitation rd = VNone ->
  exists e, fst (log_owie E s body_part w) = Raise e.
Proof.
  intros Hs Hkept Hget Hread Hprec.
  destruct (log_owie E s body_part w) as [r w'] eqn:Hrun. cbn [fst].
  apply log_owie_stages in Hrun as [(Hs' & _) | (_ & r1 & w1' & Hget' & H)];
    [congruence|].
  rewrite Hget in Hget'. injection Hget' as <- <-.
  destruct H as [(e' & -> & _) | (rd' & Hread' & _ & H)]; [eauto|].
  rewrite Hread in Hread'. injection Hread' as <-.
  pose proof (get_weather_data_kept (ow_api_key s) (lat s) (lon s)
                default_exclude w Hkept) as Hkept1.
  rewrite Hget in Hkept1. cbn [snd] in Hkept1.
  pose proof (setup_database_kept w1 Hkept1) as Hkept2.
  pose proof (setup_database_table E s w1) as Hok.
  destruct (setup_database E s w1) as [[[]|e2] w2]; cbn [snd] in Hkept2;
    [|destruct H as [-> _]; eauto].
  destruct (Hok w2 eq_refl) as (db & t & Hf2 & Hl2 & _).
  destruct (insert_owie_log E s _ _ _ w2) as [[[]|e3] w3] eqn:Hinsert;
    [|destruct H as [-> _]; eauto].
  exfalso.
  destruct (insert_owie_log_table _ _ _ _ _ _ Hf2 Hl2 Hinsert)
    as (cells & t' & o & db' & Hcells & Hins & _).
  rewrite Hprec in Hcells.
  destruct (Hkept2 db t Hf2 Hl2) as (Hcols & _).
  by apply (insert_into_null_precipitation _ _ _ _ _ _ _ _ _ _ _ _ _
              Hcols Hcells) in Hins.
Qed.

End Ids.

(** X20: with a payload that lacks a required value (absent or null),
    whatever its JSON types, [log_owie] raises in the world the fetch left:
    the file, the directory and the transaction are as before the call, and
    the trace holds no file-system or database operation of the call. *)
Theorem log_owie_incomplete_payload_writes_nothing (E : env) (s : Settings)
    (body_part : string) (w w1 : world) (payload : value) :
  settings_present s = true ->
  get_weather_data E (ow_api_key s) (lat s) (lon s) default_exclude w
  = (Return payload, w1) ->
  (forall rd, read_weather payload = Some rd -> complete rd = false) ->
  (exists e, log_owie E s body_part w = (Raise e, w1))
  /\ requests_only 5 w (snd (log_owie E s body_part w)).
Proof.
  intros Hs Hget Hmissing.
  destruct (log_owie_incomplete_payload E s body_part w payload w1 Hs Hget Hmissing)
    as [e Hrun].
  split; [eauto|]. rewrite Hrun. cbn [snd].
  pose proof (get_weather_data_requests_only
                E (ow_api_key s) (lat s) (lon s) default_exclude w) as Hreq.
  by rewrite Hget in Hreq.
Qed.

(** ** The further properties, on concrete runs *)

Lemma log_owie_fetch_failure_witness :
  log_owie throttled home_settings "knee" fresh
  = (Raise (RuntimeError "Too many requests - API rate limit reached. Please try again later."),
     snd (get_weather_data throttled (ow_api_key home_settings)
            (lat home_settings) (lon home_settings) default_exclude fresh))
  /\ requests_only 5 fresh (snd (log_owie throttled home_settings "knee" fresh)).
Proof.
  apply (log_owie_fetch_failure throttled home_settings "knee" fresh); reflexivity.
Defined.


Lemma log_owie_failure_keeps_rows_witness :
  owie_rows (snd (log_owie throttled home_settings "knee" set_up))
  = owie_rows set_up.
Proof.
  apply (log_owie_failure_keeps_rows throttled home_settings "knee" set_up).
  intros t p H. vm_compute in H. discriminate H.
Defined.

Lemma validated_settings_lack_only_db_path_witness :
  (fst (log_owie calm pathless "knee" fresh) = Return missing_settings_reply
   <-> db_path pathless = "")
  /\ (db_path pathless = "" -> snd (log_owie calm pathless "knee" fresh) = fresh).
Proof.
  apply (validated_settings_lack_only_db_path calm pathless "knee" fresh fresh).
  reflexivity.
Defined.

Lemma log_owie_incomplete_payload_runtime_error_witness :
  log_owie templess home_settings "knee" fresh
  = (Raise (RuntimeError "Incomplete weather data received from the API."),
     snd (get_weather_data templess (ow_api_key home_settings)
            (lat home_settings) (lon home_settings) default_exclude fresh)).
Proof.
  apply (log_owie_incomplete_payload_runtime_error templess home_settings "knee"
           fresh _ no_temp).
  - reflexivity.
  - vm_compute. reflexivity.
  - reflexivity.
  - intros rd H. vm_compute in H. discriminate H.
Defined.

Lemma log_owie_incomplete_payload_writes_nothing_witness :
  (exists e,
      log_owie bare home_settings "knee" fresh
      = (Raise e,
         snd (get_weather_data bare (ow_api_key home_settings)
                (lat home_settings) (lon home_settings) default_exclude fresh)))
  /\ requests_only 5 fresh (snd (log_owie bare home_settings "knee" fresh)).
Proof.
  apply (log_owie_incomplete_payload_writes_nothing bare home_settings "knee"
           fresh _ no_weather).
  - reflexivity.
  - vm_compute. reflexivity.
  - intros rd H. vm_compute in H. discriminate H.
Defined.

Lemma log_owie_keeps_ids_witness :
  kept (snd (log_owie flaky home_settings "knee" set_up)).
Proof.
  apply (log_owie_keeps_ids flaky home_settings "knee" set_up).
  intros db t [= <-] Hl. rewrite create_owie_logs_lookup in Hl.
  injection Hl as <-. repeat split; constructor.
Defined.

Lemma log_owie_gives_fresh_id_witness :
  exists r n,
    owie_rows (snd (log_owie calm home_settings "elbow" logged))
    = owie_rows logged ++ [r]
    /\ row_id r = Some n
    /\ Forall (fun r0 => exists m, row_id r0 = Some m /\ m < n)
         (owie_rows logged).
Proof.
  apply (log_owie_gives_fresh_id calm home_settings "elbow" logged
           (snd (log_owie calm home_settings "elbow" logged))
           (success_reply "elbow" (VFloat 71.5) (VInt 1013))).
  - intros db t Hf Hl. vm_compute in Hf. injection Hf as <-.
    vm_compute in Hl. injection Hl as <-.
    repeat split.
    + constructor; [|constructor]. exists 1. split; [reflexivity | by vm_compute].
    + constructor; [|constructor]. apply not_elem_of_nil.
  - vm_compute. reflexivity.
  - discriminate.
Defined.

Lemma log_owie_null_precipitation_witness :
  exists e, fst (log_owie snowy home_settings "knee" fresh) = Raise e.
Proof.
  apply (log_owie_null_precipitation snowy home_settings "knee" fresh
           (snd (get_weather_data snowy (ow_api_key home_settings)
                   (lat home_settings) (lon home_settings) default_exclude fresh))
           null_snow
           {| rd_date_time := VInt 1700000000;
              rd_temperature := VFloat 30.5;
              rd_pressure := VInt 1013;
              rd_humidity := VInt 40;
              rd_precipitation := VNone;
              rd_uv_index := VFloat 0.5;
              rd_weather_id := VInt 600;
              rd_weather_main := VStr "Snow";
              rd_weather_description := VStr "light snow" |}).
  - reflexivity.
  - intros db t H. discriminate H.
  - vm_compute. reflexivity.
  - reflexivity.
  - reflexivity.
Defined.
